(** * The ESG credit-approval training script, [src/train.py]

    The script is one straight-line program: it picks a configuration file by
    model type, loads a CSV table, optionally imputes missing values, splits
    the rows, fits an estimator, computes four metrics and logs everything to
    an MLflow store together with a few plots.

    The embedding follows the script statement by statement.  Python's module
    namespace is a finite map from variable names to values, the outside world
    (files, clock, generator state, MLflow) is a record, and every statement is
    a state transformer that may raise.  A raise keeps the state reached so
    far, as in Python.

    The libraries the script calls are not part of the repository.  Their
    data-structure operations (pandas selection, the imputer, the size rules of
    [train_test_split], the metric formulas) are written out after their
    documented behaviour; the estimators and the pseudo-random permutation are
    kept abstract in the class [Sklearn].  Python floats are idealised as exact
    numbers: rationals, and square roots of rationals where [sqrt] is taken. *)

From Stdlib Require Import Reals Qreals Lra.
From Stdlib Require Import ZArith QArith Qround Qabs Lia List Ascii String.
From stdpp Require Import gmap strings list.
#[local] Close Scope R_scope.
#[local] Close Scope Q_scope.
#[local] Close Scope Z_scope.
#[local] Open Scope nat_scope.
#[local] Open Scope string_scope.
#[local] Open Scope list_scope.

#[local] Set Warnings "-register-all".

(** ** Exceptions and results *)

Inductive exn :=
| KeyError (key : string)
| ValueError (msg : string)
| TypeError (msg : string)
| NameError (name : string)
| IndexError
| FileNotFoundError (path : string)
| JSONDecodeError (path : string)
| ParserError (path : string)
| OSError (path : string)
| MlflowException (msg : string).

Inductive result (A : Type) :=
| Ok (a : A)
| Raise (e : exn).
Arguments Ok {A} a.
Arguments Raise {A} e.

Definition rbind {A B} (r : result A) (k : A -> result B) : result B :=
  match r with
  | Ok a => k a
  | Raise e => Raise e
  end.

Declare Scope py_scope.
Delimit Scope py_scope with py.
Notation "'let?' x := r 'in' k" := (rbind r (fun x => k))
  (at level 10, x pattern, r at level 100, k at level 200) : py_scope.
Local Open Scope py_scope.

Fixpoint rmapM {A B} (f : A -> result B) (l : list A) : result (list B) :=
  match l with
  | [] => Ok []
  | a :: l' => let? b := f a in let? bs := rmapM f l' in Ok (b :: bs)
  end.

Definition is_ok {A} (r : result A) : bool :=
  match r with Ok _ => true | Raise _ => false end.

(** ** Plain Python data: what [json.load] returns *)

Inductive Json :=
| JNull
| JBool (b : bool)
| JInt (z : Z)
| JFloat (q : Q)
| JStr (s : string)
| JList (l : list Json)
| JDict (d : gmap string Json).

(** [obj[key]] on plain data. *)
Definition getitem (obj : Json) (key : string) : result Json :=
  match obj with
  | JDict d =>
      match d !! key with
      | Some v => Ok v
      | None => Raise (KeyError key)
      end
  | _ => Raise (TypeError "object is not subscriptable by a string key")
  end.

(** Truth value of an object in an [if]. *)
Definition truthy (obj : Json) : bool :=
  match obj with
  | JNull => false
  | JBool b => b
  | JInt z => negb (z =? 0)%Z
  | JFloat q => negb (Qeq_bool q 0)
  | JStr s => negb (String.eqb s "")
  | JList l => match l with [] => false | _ => true end
  | JDict d => negb (bool_decide (d = ∅))
  end.

Definition as_str (obj : Json) : result string :=
  match obj with
  | JStr s => Ok s
  | _ => Raise (TypeError "expected a string")
  end.

Definition as_str_list (obj : Json) : result (list string) :=
  match obj with
  | JList l => rmapM as_str l
  | _ => Raise (TypeError "expected a list of column names")
  end.

Definition as_dict (obj : Json) : result (gmap string Json) :=
  match obj with
  | JDict d => Ok d
  | _ => Raise (TypeError "argument after ** must be a mapping")
  end.

(** ** Tables *)

(** A cell is a number or missing (NaN). *)
Definition Cell := option Q.

(** A pandas [DataFrame], column by column.  [pd.read_csv] makes column labels
    unique, so a label selects at most one column. *)
Record DataFrame := {
  nrows : nat;
  cols : list (string * list Cell)
}.

Definition columns (d : DataFrame) : list string := (cols d).*1.


Fixpoint find_col (name : string) (cs : list (string * list Cell)) : option (list Cell) :=
  match cs with
  | [] => None
  | (n, c) :: cs' => if String.eqb n name then Some c else find_col name cs'
  end.

(** [df[name]]: one column as a Series. *)
Definition getitem_col (d : DataFrame) (name : string) : result (list Cell) :=
  match find_col name (cols d) with
  | Some c => Ok c
  | None => Raise (KeyError name)
  end.

(** [df[names]]: the listed columns, in the listed order. *)
Definition getitem_cols (d : DataFrame) (names : list string) : result DataFrame :=
  let? cs := rmapM (fun n => let? c := getitem_col d n in Ok (n, c)) names in
  Ok {| nrows := nrows d; cols := cs |}.

(** What [fit_transform] returns: a bare two-dimensional array, no labels. *)
Record ndarray := {
  arr_rows : nat;
  arr_cols : list (list Cell)
}.

(** [pd.DataFrame(arr, columns=names)]. *)
Definition DataFrame_of_array (arr : ndarray) (names : list string) : result DataFrame :=
  if (length (arr_cols arr) =? length names)%nat
  then Ok {| nrows := arr_rows arr; cols := zip names (arr_cols arr) |}
  else Raise (ValueError "Shape of passed values does not match the columns given").

(** Positional row selection, as [_safe_indexing] does for the split. *)
Definition take_cells (idx : list nat) (c : list Cell) : result (list Cell) :=
  rmapM (fun i => match c !! i with
                  | Some x => Ok x
                  | None => Raise IndexError
                  end) idx.

Definition take_rows (idx : list nat) (d : DataFrame) : result DataFrame :=
  let? cs := rmapM (fun nc : string * list Cell =>
                      let? c := take_cells idx nc.2 in Ok (nc.1, c)) (cols d) in
  Ok {| nrows := length idx; cols := cs |}.

(** ** [sklearn.impute.SimpleImputer]

    After the library's documentation: the statistic of a column is taken over
    its observed values; a column with no observed value has no statistic and
    is left out of the result, except under the strategy ["constant"], which
    fills with 0. *)

Definition observed (c : list Cell) : list Q := omap (fun x : Cell => x) c.

Definition Qsum (l : list Q) : Q := foldr Qplus 0%Q l.

Definition Qmean (l : list Q) : Q :=
  (Qsum l / inject_Z (Z.of_nat (length l)))%Q.

Fixpoint Qinsert (x : Q) (l : list Q) : list Q :=
  match l with
  | [] => [x]
  | y :: l' => if Qle_bool x y then x :: l else y :: Qinsert x l'
  end.

Definition Qsort (l : list Q) : list Q := foldr Qinsert [] l.

Definition Qmedian (l : list Q) : Q :=
  let s := Qsort l in
  let n := length s in
  if Nat.even n
  then ((nth (n / 2 - 1) s 0 + nth (n / 2) s 0) / 2)%Q
  else nth (n / 2) s 0%Q.

Definition Qcount (x : Q) (l : list Q) : nat :=
  length (filter (fun y => Qeq_bool x y = true) l).

(** The most frequent value, the smallest one among equally frequent ones. *)
Definition Qmode (l : list Q) : Q :=
  let s := Qsort l in
  foldr (fun x best => if (Qcount best s <=? Qcount x s)%nat then x else best)
        (List.last s 0%Q) s.

Inductive Strategy := Mean | Median | MostFrequent | Constant.

Definition parse_strategy (obj : Json) : result Strategy :=
  match obj with
  | JStr s =>
      if String.eqb s "mean" then Ok Mean
      else if String.eqb s "median" then Ok Median
      else if String.eqb s "most_frequent" then Ok MostFrequent
      else if String.eqb s "constant" then Ok Constant
      else Raise (ValueError "The 'strategy' parameter of SimpleImputer is not one of the known strategies")
  | _ => Raise (ValueError "The 'strategy' parameter of SimpleImputer must be a str")
  end.

(** [None] is the NaN statistic of a column without observed values. *)
Definition statistic (s : Strategy) (c : list Cell) : option Q :=
  match s with
  | Constant => Some 0%Q
  | _ =>
      match observed c with
      | [] => None
      | obs =>
          Some match s with
               | Mean => Qmean obs
               | Median => Qmedian obs
               | _ => Qmode obs
               end
      end
  end.

Definition fill (v : Q) (c : list Cell) : list Cell :=
  map (fun x : Cell => match x with Some q => Some q | None => Some v end) c.

Definition impute_column (s : Strategy) (c : list Cell) : option (list Cell) :=
  match statistic s c with
  | Some v => Some (fill v c)
  | None => None
  end.

Definition fit_transform (strategy : Json) (X : DataFrame) : result ndarray :=
  let? s := parse_strategy strategy in
  if (nrows X =? 0)%nat
  then Raise (ValueError "Found array with 0 sample(s) while a minimum of 1 is required")
  else if (length (cols X) =? 0)%nat
  then Raise (ValueError "Found array with 0 feature(s) while a minimum of 1 is required")
  else Ok {| arr_rows := nrows X;
             arr_cols := omap (fun nc : string * list Cell => impute_column s nc.2) (cols X) |}.

(** ** [sklearn.model_selection.train_test_split]: sizes and generator *)

Definition ceil_nat (q : Q) : nat := Z.to_nat (Qceiling q).

Definition Qnat (n : nat) : Q := inject_Z (Z.of_nat n).

(** [_validate_shuffle_split] with [train_size=None]: a float is a fraction of
    the rows, an integer a number of rows, [None] stands for 0.25. *)
Definition n_test_of (n : nat) (test_size : Json) : result nat :=
  match test_size with
  | JNull => Ok (ceil_nat ((1 # 4) * Qnat n))
  | JInt t =>
      if (t <=? 0)%Z || (Z.of_nat n <=? t)%Z
      then Raise (ValueError "test_size should be a positive integer smaller than the number of samples")
      else Ok (Z.to_nat t)
  | JFloat q =>
      if Qle_bool q 0 || Qle_bool 1 q
      then Raise (ValueError "test_size should be a float in the (0, 1) range")
      else Ok (ceil_nat (q * Qnat n))
  | _ => Raise (ValueError "Invalid value for test_size")
  end.

Definition split_sizes (n : nat) (test_size : Json) : result (nat * nat) :=
  let? n_test := n_test_of n test_size in
  let n_train := (n - n_test)%nat in
  if (n_train =? 0)%nat
  then Raise (ValueError "the resulting train set will be empty")
  else Ok (n_train, n_test).

(** The generator a [random_state] argument stands for: a fresh one seeded by
    an integer, or NumPy's process-wide generator in its current state. *)
Inductive Rng :=
| Seeded (seed : Z)
| Global (state : Z).

Definition check_random_state (random_state : Json) (entropy : Z) : result Rng :=
  match random_state with
  | JNull => Ok (Global entropy)
  | JInt s =>
      if (0 <=? s)%Z && (s <? 2 ^ 32)%Z
      then Ok (Seeded s)
      else Raise (ValueError "Seed must be between 0 and 2**32 - 1")
  | _ => Raise (ValueError "random_state cannot be used to seed a RandomState instance")
  end.

(** ** [sklearn.metrics] *)

(** A float result: a rational, the square root of a rational, or NaN. *)
Inductive pyfloat :=
| FRat (q : Q)
| FSqrt (q : Q)
| FNaN.



(** [_check_reg_targets]: same length, at least one sample, no NaN.  The
    result pairs each true value with its prediction. *)
Definition check_reg_targets (y_true : list Cell) (y_pred : list Q) : result (list (Q * Q)) :=
  if negb (length y_true =? length y_pred)%nat
  then Raise (ValueError "Found input variables with inconsistent numbers of samples")
  else match y_true with
       | [] => Raise (ValueError "Found array with 0 sample(s) while a minimum of 1 is required")
       | _ =>
           let? ys := rmapM (fun c : Cell =>
                               match c with
                               | Some q => Ok q
                               | None => Raise (ValueError "Input contains NaN")
                               end) y_true in
           Ok (zip ys y_pred)
       end.

Definition Qsq (q : Q) : Q := (q * q)%Q.

Definition mse_of (ps : list (Q * Q)) : Q :=
  (Qsum (map (fun p => Qsq (p.1 - p.2)) ps) / Qnat (length ps))%Q.

Definition mean_squared_error (y_true : list Cell) (y_pred : list Q) (squared : bool)
  : result pyfloat :=
  let? ps := check_reg_targets y_true y_pred in
  Ok (if squared then FRat (mse_of ps) else FSqrt (mse_of ps)).

Definition mae_of (ps : list (Q * Q)) : Q :=
  (Qsum (map (fun p => Qabs (p.1 - p.2)) ps) / Qnat (length ps))%Q.

Definition mean_absolute_error (y_true : list Cell) (y_pred : list Q) : result pyfloat :=
  let? ps := check_reg_targets y_true y_pred in
  Ok (FRat (mae_of ps)).

(** With fewer than two samples the score is undefined (NaN); a constant
    target gives 1 for a perfect fit and 0 otherwise. *)
Definition r2_of (ps : list (Q * Q)) : pyfloat :=
  if (length ps <? 2)%nat then FNaN
  else
    let ybar := Qmean ps.*1 in
    let ss_res := Qsum (map (fun p => Qsq (p.1 - p.2)) ps) in
    let ss_tot := Qsum (map (fun p => Qsq (p.1 - ybar)) ps) in
    if Qeq_bool ss_tot 0
    then FRat (if Qeq_bool ss_res 0 then 1 else 0)
    else FRat (1 - ss_res / ss_tot)%Q.

Definition r2_score (y_true : list Cell) (y_pred : list Q) : result pyfloat :=
  let? ps := check_reg_targets y_true y_pred in
  Ok (r2_of ps).

(** ** Estimators

    The four estimator classes of the dispatch share the capability
    [fit]/[predict].  What they compute is left to the library: [fit] gets
    the class, the constructor arguments, the generator the estimator draws
    from and the training data; [accepts] is the constructor's signature;
    [permutation] is [RandomState.permutation]. *)

Inductive ModelKind :=
| RandomForestRegressor
| LogisticRegression
| SVR
| XGBRegressor.

Class Sklearn := {
  Fitted : Type;
  permutation : Rng -> nat -> list nat;
  accepts : ModelKind -> string -> bool;
  fit : ModelKind -> gmap string Json -> Rng -> DataFrame -> list Cell -> result Fitted;
  predict : Fitted -> DataFrame -> result (list Q)
}.

(** ** Files, figures and the MLflow store *)

Inductive Artist :=
| BoxplotOf (data : list Cell)
| HeatmapOf (corr_of : DataFrame).

Record Figure := {
  artists : list Artist;
  title : string
}.

Definition blank_figure : Figure := {| artists := []; title := "" |}.

Inductive File :=
| FJson (j : Json)
| FCsv (d : DataFrame)
| FImage (f : Figure)
| FText (s : string).

Inductive RunStatus := RUNNING | FINISHED | FAILED.

Section WithLibrary.
Context `{L : Sklearn}.

Record Estimator := {
  kind : ModelKind;
  hyper : gmap string Json;
  fitted : option Fitted
}.

Record Run := {
  run_name : string;
  experiment : string;
  status : RunStatus;
  params : list (string * Json);
  metrics : list (string * pyfloat);
  models : list (string * Estimator);
  artifacts : list (string * File)
}.

Record Mlflow := {
  tracking_uri : string;
  autologging : bool;
  current_experiment : string;
  active_run : option Run;
  store : list Run
}.

(** The world outside the namespace.  [writable] says whether a path can be
    created or written (directories themselves are not represented); [clock]
    is the formatted time [datetime.now()] yields; [entropy] is the state of
    NumPy's process-wide generator, which the script never seeds. *)
Record World := {
  fs : gmap string File;
  writable : string -> bool;
  clock : string;
  entropy : Z;
  pyplot : Figure;
  mlflow : Mlflow;
  stdout : list string
}.

Definition set_fs (f : gmap string File) (w : World) : World :=
  {| fs := f; writable := writable w; clock := clock w; entropy := entropy w;
     pyplot := pyplot w; mlflow := mlflow w; stdout := stdout w |}.

Definition set_pyplot (p : Figure) (w : World) : World :=
  {| fs := fs w; writable := writable w; clock := clock w; entropy := entropy w;
     pyplot := p; mlflow := mlflow w; stdout := stdout w |}.

Definition set_mlflow (m : Mlflow) (w : World) : World :=
  {| fs := fs w; writable := writable w; clock := clock w; entropy := entropy w;
     pyplot := pyplot w; mlflow := m; stdout := stdout w |}.

Definition set_stdout (o : list string) (w : World) : World :=
  {| fs := fs w; writable := writable w; clock := clock w; entropy := entropy w;
     pyplot := pyplot w; mlflow := mlflow w; stdout := o |}.

Definition set_tracking_uri (u : string) (m : Mlflow) : Mlflow :=
  {| tracking_uri := u; autologging := autologging m;
     current_experiment := current_experiment m;
     active_run := active_run m; store := store m |}.

Definition set_autologging (b : bool) (m : Mlflow) : Mlflow :=
  {| tracking_uri := tracking_uri m; autologging := b;
     current_experiment := current_experiment m;
     active_run := active_run m; store := store m |}.

Definition set_experiment (e : string) (m : Mlflow) : Mlflow :=
  {| tracking_uri := tracking_uri m; autologging := autologging m;
     current_experiment := e;
     active_run := active_run m; store := store m |}.

Definition set_active_run (r : option Run) (m : Mlflow) : Mlflow :=
  {| tracking_uri := tracking_uri m; autologging := autologging m;
     current_experiment := current_experiment m;
     active_run := r; store := store m |}.

Definition set_store (s : list Run) (m : Mlflow) : Mlflow :=
  {| tracking_uri := tracking_uri m; autologging := autologging m;
     current_experiment := current_experiment m;
     active_run := active_run m; store := s |}.

Definition new_run (name exp : string) : Run :=
  {| run_name := name; experiment := exp; status := RUNNING;
     params := []; metrics := []; models := []; artifacts := [] |}.

Definition add_params (ps : list (string * Json)) (r : Run) : Run :=
  {| run_name := run_name r; experiment := experiment r; status := status r;
     params := params r ++ ps; metrics := metrics r; models := models r;
     artifacts := artifacts r |}.

Definition add_metric (k : string) (v : pyfloat) (r : Run) : Run :=
  {| run_name := run_name r; experiment := experiment r; status := status r;
     params := params r; metrics := metrics r ++ [(k, v)]; models := models r;
     artifacts := artifacts r |}.

Definition add_model (k : string) (e : Estimator) (r : Run) : Run :=
  {| run_name := run_name r; experiment := experiment r; status := status r;
     params := params r; metrics := metrics r; models := models r ++ [(k, e)];
     artifacts := artifacts r |}.

Definition add_artifact (path : string) (f : File) (r : Run) : Run :=
  {| run_name := run_name r; experiment := experiment r; status := status r;
     params := params r; metrics := metrics r; models := models r;
     artifacts := artifacts r ++ [(path, f)] |}.

Definition set_status (s : RunStatus) (r : Run) : Run :=
  {| run_name := run_name r; experiment := experiment r; status := s;
     params := params r; metrics := metrics r; models := models r;
     artifacts := artifacts r |}.

(** The fluent logging calls act on the active run and start one when there
    is none. *)
Definition the_run (m : Mlflow) : Run :=
  match active_run m with
  | Some r => r
  | None => new_run "" (current_experiment m)
  end.

Definition on_run (f : Run -> Run) (w : World) : World :=
  set_mlflow (set_active_run (Some (f (the_run (mlflow w)))) (mlflow w)) w.

(** ** Values and the namespace *)

Inductive Value :=
| VData (j : Json)
| VFile (path : string)
| VFrame (d : DataFrame)
| VSeries (s : list Cell)
| VArray (a : ndarray)
| VImputer (strategy : Json)
| VEstimator (e : Estimator)
| VPredictions (p : list Q)
| VFloat (x : pyfloat)
| VCorr (d : DataFrame).

Record State := {
  globals : gmap string Value;
  world : World
}.

(** ** Statements: state transformers that may raise *)

Definition M (A : Type) : Type := State -> State * result A.

Definition ret {A} (a : A) : M A := fun st => (st, Ok a).

Definition bind {A B} (m : M A) (k : A -> M B) : M B :=
  fun st =>
    match m st with
    | (st', Ok a) => k a st'
    | (st', Raise e) => (st', Raise e)
    end.

Definition raise {A} (e : exn) : M A := fun st => (st, Raise e).

Definition lift {A} (r : result A) : M A := fun st => (st, r).

#[export] Instance M_ret : MRet M := @ret.
#[export] Instance M_bind : MBind M := fun A B k m => bind m k.

Definition var (x : string) : M Value :=
  fun st =>
    match globals st !! x with
    | Some v => (st, Ok v)
    | None => (st, Raise (NameError x))
    end.

Definition assign (x : string) (v : Value) : M unit :=
  fun st => ({| globals := <[x := v]> (globals st); world := world st |}, Ok tt).

Definition get_world : M World := fun st => (st, Ok (world st)).

Definition modify_world (f : World -> World) : M unit :=
  fun st => ({| globals := globals st; world := f (world st) |}, Ok tt).

Fixpoint for_each {A} (l : list A) (body : A -> M unit) : M unit :=
  match l with
  | [] => ret tt
  | a :: l' => bind (body a) (fun _ => for_each l' body)
  end.

Definition var_data (x : string) : M Json :=
  v ← var x;
  match v with
  | VData j => ret j
  | _ => raise (TypeError "expected plain data")
  end.

Definition var_str (x : string) : M string :=
  j ← var_data x; lift (as_str j).

Definition var_frame (x : string) : M DataFrame :=
  v ← var x;
  match v with
  | VFrame d => ret d
  | _ => raise (TypeError "expected a DataFrame")
  end.

Definition var_series (x : string) : M (list Cell) :=
  v ← var x;
  match v with
  | VSeries s => ret s
  | _ => raise (TypeError "expected a Series")
  end.

Definition var_array (x : string) : M ndarray :=
  v ← var x;
  match v with
  | VArray a => ret a
  | _ => raise (TypeError "expected an array")
  end.

Definition var_estimator (x : string) : M Estimator :=
  v ← var x;
  match v with
  | VEstimator e => ret e
  | _ => raise (TypeError "expected an estimator")
  end.

Definition var_predictions (x : string) : M (list Q) :=
  v ← var x;
  match v with
  | VPredictions p => ret p
  | _ => raise (TypeError "expected an array of predictions")
  end.

Definition var_float (x : string) : M pyfloat :=
  v ← var x;
  match v with
  | VFloat f => ret f
  | _ => raise (TypeError "expected a float")
  end.


(** ** Library calls that need the estimator interface or the world *)

(** [train_test_split(X, y, test_size=..., random_state=...)]: the first
    [n_test] entries of a permutation of the row positions go to the test
    part, the next [n_train] to the train part. *)
Definition train_test_split (X : DataFrame) (y : list Cell)
    (test_size random_state : Json) (entropy : Z)
  : result (DataFrame * DataFrame * list Cell * list Cell) :=
  if negb (nrows X =? length y)%nat
  then Raise (ValueError "Found input variables with inconsistent numbers of samples")
  else
    let? sizes := split_sizes (nrows X) test_size in
    let? rng := check_random_state random_state entropy in
    let p := permutation rng (nrows X) in
    let ind_test := take sizes.2 p in
    let ind_train := take sizes.1 (drop sizes.2 p) in
    let? X_train := take_rows ind_train X in
    let? X_test := take_rows ind_test X in
    let? y_train := take_cells ind_train y in
    let? y_test := take_cells ind_test y in
    Ok (X_train, X_test, y_train, y_test).

(** The constructor call, the hyperparameter mapping expanded into keyword
    arguments. *)
Definition construct (k : ModelKind) (hyperparameters : Json) : result Estimator :=
  let? hp := as_dict hyperparameters in
  if forallb (accepts k) (map_to_list hp).*1
  then Ok {| kind := k; hyper := hp; fitted := None |}
  else Raise (TypeError "__init__() got an unexpected keyword argument").

(** An estimator built without an integer [random_state] draws from the
    process-wide generator. *)
Definition estimator_rng (hp : gmap string Json) (entropy : Z) : Rng :=
  match hp !! "random_state" with
  | Some (JInt s) => Seeded s
  | _ => Global entropy
  end.

Definition starts_with_slash (s : string) : bool :=
  match s with
  | String c _ => Ascii.eqb c "/"%char
  | EmptyString => false
  end.

Fixpoint ends_with_slash (s : string) : bool :=
  match s with
  | EmptyString => false
  | String c EmptyString => Ascii.eqb c "/"%char
  | String _ s' => ends_with_slash s'
  end.

(** [os.path.join(a, b)]. *)
Definition path_join (a b : string) : string :=
  if starts_with_slash b then b
  else if String.eqb a "" || ends_with_slash a then a +:+ b
  else a +:+ "/" +:+ b.

Definition write_file (path : string) (content : File) : M unit :=
  w ← get_world;
  if writable w path
  then modify_world (set_fs (<[path := content]> (fs w)))
  else raise (OSError path).

Definition log_param (k : string) (v : Json) : M unit :=
  modify_world (on_run (add_params [(k, v)])).

Definition log_params (d : gmap string Json) : M unit :=
  modify_world (on_run (add_params (map_to_list d))).

Definition log_metric (k : string) (v : pyfloat) : M unit :=
  modify_world (on_run (add_metric k v)).

Definition log_model (e : Estimator) (k : string) : M unit :=
  modify_world (on_run (add_model k e)).

Definition log_artifact (path : string) : M unit :=
  w ← get_world;
  match fs w !! path with
  | Some f => modify_world (on_run (add_artifact path f))
  | None => raise (MlflowException "artifact path does not exist")
  end.

Definition start_run (name : string) : M unit :=
  w ← get_world;
  match active_run (mlflow w) with
  | Some _ => raise (MlflowException "a run is already active")
  | None =>
      modify_world
        (set_mlflow (set_active_run
                       (Some (new_run name (current_experiment (mlflow w))))
                       (mlflow w)))
  end.

Definition end_run (s : RunStatus) (w : World) : World :=
  match active_run (mlflow w) with
  | Some r =>
      set_mlflow (set_store (store (mlflow w) ++ [set_status s r])
                            (set_active_run None (mlflow w))) w
  | None => w
  end.

(** [with mlflow.start_run(run_name=name): body].  Leaving the block ends the
    run, as finished or, when the body raised, as failed; what was logged up
    to the raise stays in the record. *)
Definition leave_run (body : M unit) : M unit :=
  fun st =>
    match body st with
    | (st', Ok _) =>
        ({| globals := globals st'; world := end_run FINISHED (world st') |}, Ok tt)
    | (st', Raise e) =>
        ({| globals := globals st'; world := end_run FAILED (world st') |}, Raise e)
    end.

Definition with_run (name : string) (body : M unit) : M unit :=
  start_run name;; leave_run body.

Definition plt_figure : M unit := modify_world (set_pyplot blank_figure).

Definition plt_draw (a : Artist) : M unit :=
  modify_world (fun w =>
    set_pyplot {| artists := artists (pyplot w) ++ [a]; title := title (pyplot w) |} w).

Definition plt_title (t : string) : M unit :=
  modify_world (fun w =>
    set_pyplot {| artists := artists (pyplot w); title := t |} w).

Definition plt_savefig (path : string) : M unit :=
  w ← get_world; write_file path (FImage (pyplot w)).

Definition plt_close : M unit := modify_world (set_pyplot blank_figure).

(** ** The script, statement by statement

    [line_N] is the statement at line [N] of [src/train.py]. *)

Definition line_18 : M unit :=
  assign "tracking_dir" (VData (JStr "/workspaces/ESG_Credit_Approval/mlflowlogs/mlruns")).

Definition line_20 : M unit :=
  assign "artifact_dir" (VData (JStr "/workspaces/ESG_Credit_Approval/mlflowlogs/artifacts")).

Definition line_22 : M unit :=
  tracking_dir ← var_str "tracking_dir";
  modify_world (fun w => set_mlflow (set_tracking_uri ("file://" +:+ tracking_dir) (mlflow w)) w).

Definition model_config_files : gmap string Json :=
  {[ "RandomForestRegressor" := JStr "configs/RandomForest.json";
     "LogisticRegression" := JStr "configs/LogisticRegression.json";
     "XGBRegressor" := JStr "configs/XGBoost.json" ]}.

Definition line_25 : M unit :=
  assign "model_config_files" (VData (JDict model_config_files)).

(** The model type is edited in the script body; here it is the script's
    parameter. *)
Definition line_32 (model_type : string) : M unit :=
  assign "model_type" (VData (JStr model_type)).

Definition line_34 : M unit :=
  files ← var_data "model_config_files";
  model_type ← var_str "model_type";
  entry ← lift (getitem files model_type);
  path ← lift (as_str entry);
  w ← get_world;
  match fs w !! path with
  | None => raise (FileNotFoundError path)
  | Some file =>
      assign "f" (VFile path);;
      match file with
      | FJson config => assign "config" (VData config)
      | _ => raise (JSONDecodeError path)
      end
  end.

Definition line_38 : M unit :=
  w ← get_world;
  match fs w !! "data/processed_data/cleaned_data.csv" with
  | None => raise (FileNotFoundError "data/processed_data/cleaned_data.csv")
  | Some (FCsv df) => assign "df" (VFrame df)
  | Some _ => raise (ParserError "data/processed_data/cleaned_data.csv")
  end.

Definition line_41 : M unit :=
  config ← var_data "config";
  feature_selection ← lift (getitem config "feature_selection");
  features ← lift (getitem feature_selection "features_to_keep");
  assign "features" (VData features).

Definition line_42 : M unit :=
  df ← var_frame "df";
  features ← var_data "features";
  names ← lift (as_str_list features);
  X ← lift (getitem_cols df names);
  assign "X" (VFrame X).

Definition line_43 : M unit :=
  df ← var_frame "df";
  config ← var_data "config";
  target ← lift (getitem config "target_variable");
  name ← lift (as_str target);
  y ← lift (getitem_col df name);
  assign "y" (VSeries y).

Definition line_47 : M unit :=
  config ← var_data "config";
  mvi ← lift (getitem config "missing_value_imputation");
  strategy ← lift (getitem mvi "strategy");
  assign "strategy" (VData strategy).

Definition line_48 : M unit :=
  strategy ← var_data "strategy";
  assign "imputer" (VImputer strategy).

Definition line_49 : M unit :=
  v ← var "imputer";
  X ← var_frame "X";
  match v with
  | VImputer strategy =>
      arr ← lift (fit_transform strategy X);
      assign "X" (VArray arr)
  | _ => raise (TypeError "expected an imputer")
  end.

Definition line_50 : M unit :=
  arr ← var_array "X";
  features ← var_data "features";
  names ← lift (as_str_list features);
  X ← lift (DataFrame_of_array arr names);
  assign "X" (VFrame X).

Definition line_46 : M unit :=
  config ← var_data "config";
  mvi ← lift (getitem config "missing_value_imputation");
  enabled ← lift (getitem mvi "enabled");
  if truthy enabled
  then line_47;; line_48;; line_49;; line_50
  else ret tt.

Definition line_53 : M unit :=
  config ← var_data "config";
  data_split ← lift (getitem config "data_split");
  test_size ← lift (getitem data_split "test_size");
  assign "test_size" (VData test_size).

Definition line_54 : M unit :=
  config ← var_data "config";
  data_split ← lift (getitem config "data_split");
  random_state ← lift (getitem data_split "random_state");
  assign "random_state" (VData random_state).

Definition line_55 : M unit :=
  X ← var_frame "X";
  y ← var_series "y";
  test_size ← var_data "test_size";
  random_state ← var_data "random_state";
  w ← get_world;
  parts ← lift (train_test_split X y test_size random_state (entropy w));
  assign "X_train" (VFrame parts.1.1.1);;
  assign "X_test" (VFrame parts.1.1.2);;
  assign "y_train" (VSeries parts.1.2);;
  assign "y_test" (VSeries parts.2).

Definition line_58 : M unit :=
  config ← var_data "config";
  model ← lift (getitem config "model");
  hyperparameters ← lift (getitem model "hyperparameters");
  assign "hyperparameters" (VData hyperparameters).

Definition build (k : ModelKind) : M unit :=
  hyperparameters ← var_data "hyperparameters";
  e ← lift (construct k hyperparameters);
  assign "model" (VEstimator e).

Definition line_60 : M unit :=
  model_type ← var_str "model_type";
  if String.eqb model_type "RandomForestRegressor" then build RandomForestRegressor
  else if String.eqb model_type "LogisticRegression" then build LogisticRegression
  else if String.eqb model_type "SVR" then build SVR
  else if String.eqb model_type "XGBRegressor" then build XGBRegressor
  else raise (ValueError ("Model type " +:+ model_type +:+ " is not supported.")).

(** Autologging makes [fit] record parameters and training scores of its
    own; the model keeps the switch and tracks what the script logs itself. *)
Definition line_72 : M unit :=
  modify_world (fun w => set_mlflow (set_autologging true (mlflow w)) w).

Definition line_75 : M unit :=
  assign "experiment_name" (VData (JStr "No_ESG")).

Definition line_76 : M unit :=
  experiment_name ← var_str "experiment_name";
  modify_world (fun w => set_mlflow (set_experiment experiment_name (mlflow w)) w).

Definition line_79 : M unit :=
  model_type ← var_str "model_type";
  w ← get_world;
  assign "run_name" (VData (JStr (model_type +:+ " run " +:+ clock w))).

Definition line_83 : M unit :=
  model ← var_estimator "model";
  X_train ← var_frame "X_train";
  y_train ← var_series "y_train";
  w ← get_world;
  f ← lift (fit (kind model) (hyper model)
                (estimator_rng (hyper model) (entropy w)) X_train y_train);
  assign "model" (VEstimator {| kind := kind model; hyper := hyper model; fitted := Some f |}).

Definition line_86 : M unit :=
  model ← var_estimator "model";
  X_test ← var_frame "X_test";
  match fitted model with
  | Some f =>
      predictions ← lift (predict f X_test);
      assign "predictions" (VPredictions predictions)
  | None => raise (ValueError "This estimator instance is not fitted yet")
  end.

Definition line_89 : M unit :=
  y_test ← var_series "y_test";
  predictions ← var_predictions "predictions";
  mse ← lift (mean_squared_error y_test predictions true);
  assign "mse" (VFloat mse).

Definition line_90 : M unit :=
  y_test ← var_series "y_test";
  predictions ← var_predictions "predictions";
  mae ← lift (mean_absolute_error y_test predictions);
  assign "mae" (VFloat mae).

Definition line_91 : M unit :=
  y_test ← var_series "y_test";
  predictions ← var_predictions "predictions";
  rmse ← lift (mean_squared_error y_test predictions false);
  assign "rmse" (VFloat rmse).

Definition line_92 : M unit :=
  y_test ← var_series "y_test";
  predictions ← var_predictions "predictions";
  r2 ← lift (r2_score y_test predictions);
  assign "r2" (VFloat r2).

Definition line_95 : M unit :=
  model_type ← var_data "model_type";
  log_param "model_type" model_type.

Definition line_96 : M unit :=
  hyperparameters ← var_data "hyperparameters";
  d ← lift (as_dict hyperparameters);
  log_params d.

Definition line_97 : M unit := mse ← var_float "mse"; log_metric "mse" mse.
Definition line_98 : M unit := mae ← var_float "mae"; log_metric "mae" mae.
Definition line_99 : M unit := rmse ← var_float "rmse"; log_metric "rmse" rmse.
Definition line_100 : M unit := r2 ← var_float "r2"; log_metric "r2" r2.

Definition line_103 : M unit :=
  model ← var_estimator "model";
  log_model model "model".

Definition line_106 : M unit :=
  artifact_dir ← var_str "artifact_dir";
  assign "eda_dir" (VData (JStr (path_join artifact_dir "EDA"))).

Definition line_107 : M unit :=
  eda_dir ← var_str "eda_dir";
  assign "boxplot_dir" (VData (JStr (path_join eda_dir "boxplots"))).

Definition line_108 : M unit :=
  boxplot_dir ← var_str "boxplot_dir";
  w ← get_world;
  if writable w boxplot_dir then ret tt else raise (OSError boxplot_dir).

Definition line_111 : M unit :=
  artifact_dir ← var_str "artifact_dir";
  model_type ← var_str "model_type";
  assign "config_path" (VData (JStr (path_join artifact_dir (model_type +:+ ".json")))).

Definition line_112 : M unit :=
  config_path ← var_str "config_path";
  write_file config_path (FText "");;
  assign "config_file" (VFile config_path);;
  config ← var_data "config";
  v ← var "config_file";
  match v with
  | VFile path => write_file path (FJson config)
  | _ => raise (TypeError "expected a file")
  end.

Definition line_114 : M unit :=
  config_path ← var_str "config_path";
  log_artifact config_path.

(** The body of the loop at line 117, for one column. *)
Definition lines_118_124 (column : string) : M unit :=
  assign "column" (VData (JStr column));;
  plt_figure;;
  X ← var_frame "X";
  column ← var_str "column";
  series ← lift (getitem_col X column);
  plt_draw (BoxplotOf series);;
  plt_title ("Boxplot of " +:+ column);;
  boxplot_dir ← var_str "boxplot_dir";
  assign "boxplot_path" (VData (JStr (path_join boxplot_dir (column +:+ "_boxplot.png"))));;
  boxplot_path ← var_str "boxplot_path";
  plt_savefig boxplot_path;;
  plt_close;;
  log_artifact boxplot_path.

Definition line_117 : M unit :=
  X ← var_frame "X";
  for_each (columns X) lines_118_124.

Definition line_127 : M unit :=
  X ← var_frame "X";
  assign "corr" (VCorr X).

Definition lines_128_134 : M unit :=
  plt_figure;;
  v ← var "corr";
  match v with
  | VCorr d =>
      plt_draw (HeatmapOf d);;
      plt_title "Correlation Matrix";;
      eda_dir ← var_str "eda_dir";
      assign "corr_path" (VData (JStr (path_join eda_dir "correlation_matrix.png")));;
      corr_path ← var_str "corr_path";
      plt_savefig corr_path;;
      plt_close;;
      log_artifact corr_path
  | _ => raise (TypeError "expected a correlation matrix")
  end.

Definition line_136 : M unit :=
  modify_world (fun w => set_stdout (stdout w ++ ["Done logging to MLflow"]) w).

(** Lines 89 to 92: the four metrics. *)
Definition evaluate : M unit :=
  line_89;; line_90;; line_91;; line_92.

(** Lines 83 to 92: fit, predict, evaluate. *)
Definition fit_and_evaluate : M unit :=
  line_83;; line_86;; evaluate.

(** Lines 95 to 134: everything that is logged. *)
Definition log_everything : M unit :=
  line_95;; line_96;; line_97;; line_98;; line_99;; line_100;;
  line_103;;
  line_106;; line_107;; line_108;;
  line_111;; line_112;; line_114;;
  line_117;;
  line_127;; lines_128_134.

Definition line_81 : M unit :=
  run_name ← var_str "run_name";
  with_run run_name (fit_and_evaluate;; log_everything).

(** Lines 18 to 32: the constants at the head of the script. *)
Definition constants (model_type : string) : M unit :=
  line_18;; line_20;; line_22;; line_25;; line_32 model_type.

(** Lines 18 to 69: everything before MLflow is set up. *)
Definition prepare (model_type : string) : M unit :=
  constants model_type;;
  line_34;; line_38;;
  line_41;; line_42;; line_43;;
  line_46;;
  line_53;; line_54;; line_55;;
  line_58;; line_60.

Definition train_py (model_type : string) : M unit :=
  prepare model_type;;
  line_72;; line_75;; line_76;; line_79;;
  line_81;;
  line_136.

(** A run of the script in a fresh interpreter. *)
Definition run (model_type : string) (w : World) : State * result unit :=
  train_py model_type {| globals := ∅; world := w |}.

End WithLibrary.

(** ** A small library instance and concrete worlds

    A stand-in for scikit-learn, used to run the script on concrete inputs:
    the permutation reverses the row positions, every keyword argument is
    accepted, and a fitted model predicts the mean of the observed training
    targets, shifted by the state of the process-wide generator when the
    estimator was not given a seed of its own. *)

Definition jitter (g : Rng) : Q :=
  match g with
  | Seeded _ => 0%Q
  | Global s => inject_Z s
  end.

Definition demo_sklearn : Sklearn := {|
  Fitted := Q;
  permutation := fun _ n => rev (seq 0 n);
  accepts := fun _ _ => true;
  fit := fun _ _ g _ y =>
    match observed y with
    | [] => Raise (ValueError "no observed target")
    | obs => Ok (Qmean obs + jitter g)%Q
    end;
  predict := fun f X => Ok (replicate (nrows X) f)
|}.

Definition fresh_mlflow : @Mlflow demo_sklearn :=
  {| tracking_uri := ""; autologging := false; current_experiment := "Default";
     active_run := None; store := [] |}.

Definition make_world (files : gmap string File) (now : string) (seed : Z)
  : @World demo_sklearn :=
  {| fs := files; writable := fun _ => true; clock := now; entropy := seed;
     pyplot := blank_figure; mlflow := fresh_mlflow; stdout := [] |}.

Definition nums (l : list Z) : list Cell := map (fun z => Some (inject_Z z)) l.

(** Ten rows, columns [a], [b] and [y]. *)
Definition ten_rows : DataFrame :=
  {| nrows := 10;
     cols := [ ("a", nums [1; 2; 3; 4; 5; 6; 7; 8; 9; 10]%Z);
               ("b", nums [2; 3; 5; 7; 11; 13; 17; 19; 23; 29]%Z);
               ("y", nums [3; 5; 8; 11; 16; 19; 24; 27; 32; 39]%Z) ] |}.

Definition split_section : Json :=
  JDict {[ "test_size" := JFloat (2 # 10); "random_state" := JInt 42 ]}.

Definition model_section : Json :=
  JDict {[ "hyperparameters" := JDict {[ "n_estimators" := JInt 10 ]} ]}.

(** The configuration of the concrete scenario, as the specification writes
    it: [features_to_keep] at the top level. *)
Definition flat_config : Json :=
  JDict {[ "features_to_keep" := JList [JStr "a"; JStr "b"];
           "target_variable" := JStr "y";
           "missing_value_imputation" := JDict {[ "enabled" := JBool false ]};
           "data_split" := split_section;
           "model" := model_section ]}.

(** The same configuration in the layout line 41 reads. *)
Definition nested_config : Json :=
  JDict {[ "feature_selection" :=
             JDict {[ "features_to_keep" := JList [JStr "a"; JStr "b"] ]};
           "target_variable" := JStr "y";
           "missing_value_imputation" := JDict {[ "enabled" := JBool false ]};
           "data_split" := split_section;
           "model" := model_section ]}.

Definition files_with (config : Json) (df : DataFrame) : gmap string File :=
  {[ "configs/RandomForest.json" := FJson config;
     "data/processed_data/cleaned_data.csv" := FCsv df ]}.

Definition demo_world : @World demo_sklearn :=
  make_world (files_with nested_config ten_rows) "2024-05-01 10:00:00" 7.

(** The same inputs seen by another process: a later clock and another
    state of the process-wide generator. *)
Definition later_world : @World demo_sklearn :=
  make_world (files_with nested_config ten_rows) "2024-05-02 09:30:00" 8.

(** A configuration whose hyperparameters seed the estimator as well. *)
Definition seeded_config : Json :=
  JDict {[ "feature_selection" :=
             JDict {[ "features_to_keep" := JList [JStr "a"; JStr "b"] ]};
           "target_variable" := JStr "y";
           "missing_value_imputation" := JDict {[ "enabled" := JBool false ]};
           "data_split" := split_section;
           "model" :=
             JDict {[ "hyperparameters" :=
                        JDict {[ "n_estimators" := JInt 10; "random_state" := JInt 0 ]} ]} ]}.

Definition seeded_world (now : string) (seed : Z) : @World demo_sklearn :=
  make_world (files_with seeded_config ten_rows) now seed.

(** The world of the scenario as the specification writes its
    configuration. *)
Definition flat_world : @World demo_sklearn :=
  make_world (files_with flat_config ten_rows) "2024-05-01 10:00:00" 7.


(** A state in which only the inputs of line 55 are bound: the features and
    the target of the ten-row table. *)
Definition ten_rows_X : DataFrame :=
  {| nrows := 10;
     cols := [ ("a", nums [1; 2; 3; 4; 5; 6; 7; 8; 9; 10]%Z);
               ("b", nums [2; 3; 5; 7; 11; 13; 17; 19; 23; 29]%Z) ] |}.

Definition ten_rows_y : list Cell := nums [3; 5; 8; 11; 16; 19; 24; 27; 32; 39]%Z.

Definition splitting_state (test_size random_state : Json) : @State demo_sklearn :=
  {| globals := {[ "X" := VFrame ten_rows_X; "y" := VSeries ten_rows_y;
                   "test_size" := VData test_size;
                   "random_state" := VData random_state ]};
     world := demo_world |}.

(** ** States reached along the way *)

Section Landmarks.
Context `{L : Sklearn}.

(** The state after lines 18 to 32. *)
Definition after_constants (model_type : string) (w : World) : State :=
  {| globals :=
       <["model_type" := VData (JStr model_type)]>
         (<["model_config_files" := VData (JDict model_config_files)]>
            (<["artifact_dir" := VData (JStr "/workspaces/ESG_Credit_Approval/mlflowlogs/artifacts")]>
               (<["tracking_dir" := VData (JStr "/workspaces/ESG_Credit_Approval/mlflowlogs/mlruns")]> ∅)));
     world :=
       set_mlflow (set_tracking_uri "file:///workspaces/ESG_Credit_Approval/mlflowlogs/mlruns"
                                    (mlflow w)) w |}.

(** A state in which only the inputs of the dispatch at line 60 are bound. *)
Definition at_dispatch (model_type : string) (hyperparameters : Json) (w : World) : State :=
  {| globals := <["hyperparameters" := VData hyperparameters]>
                  (<["model_type" := VData (JStr model_type)]> ∅);
     world := w |}.

Definition supported (model_type : string) : Prop :=
  model_type ∈ ["RandomForestRegressor"; "LogisticRegression"; "SVR"; "XGBRegressor"].



End Landmarks.

(** ** Shapes *)



(** A configuration that switches imputation on. *)
Definition imputing_config (strategy : Json) : Json :=
  JDict {[ "missing_value_imputation" :=
             JDict {[ "enabled" := JBool true; "strategy" := strategy ]} ]}.


(** Three rows with gaps, each column with an observed value. *)
Definition gappy_frame : DataFrame :=
  {| nrows := 3;
     cols := [ ("a", [Some 1%Q; None; Some 3%Q]);
               ("b", [None; Some 4%Q; None]) ] |}.

(** The state line 46 starts from, for a frame selected at line 42. *)
Definition before_imputation (strategy : Json) (X : DataFrame) : @State demo_sklearn :=
  {| globals := {[ "config" := VData (imputing_config strategy);
                   "features" := VData (JList (JStr <$> columns X));
                   "X" := VFrame X ]};
     world := demo_world |}.

(** ** What a completed run has established *)

Section Facts.
Context `{L : Sklearn}.

(** The dispatch at lines 60 to 69 as a function of the model type. *)
Definition kind_of (model_type : string) : option ModelKind :=
  if String.eqb model_type "RandomForestRegressor" then Some RandomForestRegressor
  else if String.eqb model_type "LogisticRegression" then Some LogisticRegression
  else if String.eqb model_type "SVR" then Some SVR
  else if String.eqb model_type "XGBRegressor" then Some XGBRegressor
  else None.

(** [X] after line 46, from the frame [X0] selected at line 42. *)
Definition imputation_result (config : Json) (names : list string) (X0 X : DataFrame) : Prop :=
  exists mvi enabled,
    getitem config "missing_value_imputation" = Ok mvi
    /\ getitem mvi "enabled" = Ok enabled
    /\ if truthy enabled
       then exists strategy arr,
              getitem mvi "strategy" = Ok strategy
              /\ fit_transform strategy X0 = Ok arr
              /\ DataFrame_of_array arr names = Ok X
       else X = X0.

(** The inputs and bindings of a state reached by lines 18 to 69. *)
Record prepared (model_type : string) (w : World) (st : State)
    (config : Json) (df : DataFrame) (names : list string) (X : DataFrame)
    (y : list Cell) (test_size random_state : Json)
    (parts : DataFrame * DataFrame * list Cell * list Cell)
    (hyperparameters : Json) (model : Estimator) : Prop := {
  p_entry : exists path,
      model_config_files !! model_type = Some (JStr path)
      /\ fs w !! path = Some (FJson config);
  p_data : fs w !! "data/processed_data/cleaned_data.csv" = Some (FCsv df);
  p_features : exists section features,
      getitem config "feature_selection" = Ok section
      /\ getitem section "features_to_keep" = Ok features
      /\ as_str_list features = Ok names
      /\ globals st !! "features" = Some (VData features);
  p_select : exists X0,
      getitem_cols df names = Ok X0 /\ imputation_result config names X0 X;
  p_target : exists target name,
      getitem config "target_variable" = Ok target
      /\ as_str target = Ok name
      /\ getitem_col df name = Ok y;
  p_params : exists section,
      getitem config "data_split" = Ok section
      /\ getitem section "test_size" = Ok test_size
      /\ getitem section "random_state" = Ok random_state;
  p_split : train_test_split X y test_size random_state (entropy w) = Ok parts;
  p_model : exists section k,
      getitem config "model" = Ok section
      /\ getitem section "hyperparameters" = Ok hyperparameters
      /\ kind_of model_type = Some k
      /\ construct k hyperparameters = Ok model;
  p_world : world st = world (after_constants model_type w);
  p_model_type : globals st !! "model_type" = Some (VData (JStr model_type));
  p_artifact_dir : globals st !! "artifact_dir"
                   = Some (VData (JStr "/workspaces/ESG_Credit_Approval/mlflowlogs/artifacts"));
  p_config : globals st !! "config" = Some (VData config);
  p_df : globals st !! "df" = Some (VFrame df);
  p_X : globals st !! "X" = Some (VFrame X);
  p_y : globals st !! "y" = Some (VSeries y);
  p_test_size : globals st !! "test_size" = Some (VData test_size);
  p_random_state : globals st !! "random_state" = Some (VData random_state);
  p_X_train : globals st !! "X_train" = Some (VFrame parts.1.1.1);
  p_X_test : globals st !! "X_test" = Some (VFrame parts.1.1.2);
  p_y_train : globals st !! "y_train" = Some (VSeries parts.1.2);
  p_y_test : globals st !! "y_test" = Some (VSeries parts.2);
  p_hyperparameters : globals st !! "hyperparameters" = Some (VData hyperparameters);
  p_estimator : globals st !! "model" = Some (VEstimator model)
}.

End Facts.

Section Logged.
Context `{L : Sklearn}.

(** What one pass through lines 118 to 124 saves and logs for a column. *)
Definition boxplot_path (boxplot_dir column : string) : string :=
  path_join boxplot_dir (column +:+ "_boxplot.png").

Definition boxplot_figure (X : DataFrame) (column : string) : Figure :=
  {| artists := [BoxplotOf (default [] (find_col column (cols X)))];
     title := "Boxplot of " +:+ column |}.

Definition boxplot_artifact (boxplot_dir : string) (X : DataFrame) (column : string)
  : string * File :=
  (boxplot_path boxplot_dir column, FImage (boxplot_figure X column)).

Definition heatmap_figure (X : DataFrame) : Figure :=
  {| artists := [HeatmapOf X]; title := "Correlation Matrix" |}.

Definition is_boxplot (entry : string * File) : bool :=
  match entry.2 with
  | FImage {| artists := [BoxplotOf _] |} => true
  | _ => false
  end.

Definition add_artifacts (entries : list (string * File)) (r : Run) : Run :=
  {| run_name := run_name r; experiment := experiment r; status := status r;
     params := params r; metrics := metrics r; models := models r;
     artifacts := artifacts r ++ entries |}.

Definition artifact_dir : string :=
  "/workspaces/ESG_Credit_Approval/mlflowlogs/artifacts".
Definition eda_dir : string := path_join artifact_dir "EDA".
Definition boxplot_dir : string := path_join eda_dir "boxplots".
Definition corr_path : string := path_join eda_dir "correlation_matrix.png".
Definition config_path (model_type : string) : string :=
  path_join artifact_dir (model_type +:+ ".json").

(** The record a completed [with] block at line 81 leaves in the store. *)
Definition run_record (name exp model_type : string) (config : Json)
    (hp : gmap string Json) (model : Estimator) (mse mae rmse r2 : pyfloat)
    (X : DataFrame) : Run :=
  {| run_name := name;
     experiment := exp;
     status := FINISHED;
     params := ("model_type", JStr model_type) :: map_to_list hp;
     metrics := [("mse", mse); ("mae", mae); ("rmse", rmse); ("r2", r2)];
     models := [("model", model)];
     artifacts := (config_path model_type, FJson config)
                  :: (boxplot_artifact boxplot_dir X <$> columns X)
                  ++ [(corr_path, FImage (heatmap_figure X))] |}.

(** What a completed [with] block has computed, from the bindings of the
    state [st] it started in to those of the state [st'] it ended in. *)
Record logged (st st' : State)
    (model_type : string) (config : Json) (X : DataFrame)
    (parts : DataFrame * DataFrame * list Cell * list Cell)
    (model : Estimator) (f : Fitted) (predictions : list Q)
    (mse mae rmse r2 : pyfloat) : Prop := {
  l_model_type : globals st !! "model_type" = Some (VData (JStr model_type));
  l_config : globals st !! "config" = Some (VData config);
  l_X : globals st !! "X" = Some (VFrame X);
  l_X_train : globals st !! "X_train" = Some (VFrame parts.1.1.1);
  l_X_test : globals st !! "X_test" = Some (VFrame parts.1.1.2);
  l_y_train : globals st !! "y_train" = Some (VSeries parts.1.2);
  l_y_test : globals st !! "y_test" = Some (VSeries parts.2);
  l_model : globals st !! "model" = Some (VEstimator model);
  l_fit : fit (kind model) (hyper model)
              (estimator_rng (hyper model) (entropy (world st)))
              parts.1.1.1 parts.1.2 = Ok f;
  l_predict : predict f parts.1.1.2 = Ok predictions;
  l_mse : mean_squared_error parts.2 predictions true = Ok mse;
  l_mae : mean_absolute_error parts.2 predictions = Ok mae;
  l_rmse : mean_squared_error parts.2 predictions false = Ok rmse;
  l_r2 : r2_score parts.2 predictions = Ok r2;
  l_store : exists name hyperparameters,
      globals st !! "run_name" = Some (VData (JStr name))
      /\ globals st !! "hyperparameters" = Some (VData (JDict hyperparameters))
      /\ store (mlflow (world st'))
         = store (mlflow (world st))
           ++ [run_record name (current_experiment (mlflow (world st))) model_type config
                 hyperparameters
                 {| kind := kind model; hyper := hyper model; fitted := Some f |}
                 mse mae rmse r2 X];
  l_active : active_run (mlflow (world st')) = None;
  l_entropy : entropy (world st') = entropy (world st);
  l_mse' : globals st' !! "mse" = Some (VFloat mse);
  l_mae' : globals st' !! "mae" = Some (VFloat mae);
  l_rmse' : globals st' !! "rmse" = Some (VFloat rmse);
  l_r2' : globals st' !! "r2" = Some (VFloat r2);
  l_keeps : forall x,
      x ∈ ["config"; "df"; "features"; "X"; "y"; "test_size"; "random_state";
           "X_train"; "X_test"; "y_train"; "y_test"; "hyperparameters";
           "model_type"] ->
      globals st' !! x = globals st !! x
}.

End Logged.

Section Completed.
Context `{L : Sklearn}.

(** The variables of lines 38 to 58 that nothing rebinds afterwards. *)
Definition settled : list string :=
  ["config"; "df"; "features"; "X"; "y"; "test_size"; "random_state";
   "X_train"; "X_test"; "y_train"; "y_test"; "hyperparameters"; "model_type"].

(** What a run that reached line 136 has read, computed and stored. *)
Record completed (model_type : string) (w : World) (st : State)
    (config : Json) (df : DataFrame) (names : list string) (X : DataFrame)
    (y : list Cell) (test_size random_state : Json)
    (parts : DataFrame * DataFrame * list Cell * list Cell)
    (hp : gmap string Json) (model : Estimator) (f : Fitted)
    (predictions : list Q) (mse mae rmse r2 : pyfloat) : Prop := {
  c_prepared : exists st1,
      prepared model_type w st1 config df names X y test_size random_state parts
               (JDict hp) model
      /\ forall x, x ∈ settled -> globals st !! x = globals st1 !! x;
  c_fit : fit (kind model) (hyper model)
              (estimator_rng (hyper model) (entropy w))
              parts.1.1.1 parts.1.2 = Ok f;
  c_predict : predict f parts.1.1.2 = Ok predictions;
  c_mse : mean_squared_error parts.2 predictions true = Ok mse;
  c_mae : mean_absolute_error parts.2 predictions = Ok mae;
  c_rmse : mean_squared_error parts.2 predictions false = Ok rmse;
  c_r2 : r2_score parts.2 predictions = Ok r2;
  c_store : store (mlflow (world st))
            = store (mlflow w)
              ++ [run_record (model_type +:+ " run " +:+ clock w) "No_ESG" model_type
                    config hp
                    {| kind := kind model; hyper := hyper model; fitted := Some f |}
                    mse mae rmse r2 X];
  c_mse' : globals st !! "mse" = Some (VFloat mse);
  c_mae' : globals st !! "mae" = Some (VFloat mae);
  c_rmse' : globals st !! "rmse" = Some (VFloat rmse);
  c_r2' : globals st !! "r2" = Some (VFloat r2)
}.

End Completed.

Section AfterLoading.
Context `{L : Sklearn}.

(** Lines 41 to 136: everything that follows the two loads. *)
Definition after_loading : M unit :=
  line_41;; line_42;; line_43;;
  line_46;;
  line_53;; line_54;; line_55;;
  line_58;; line_60;;
  line_72;; line_75;; line_76;; line_79;;
  line_81;;
  line_136.

(** A statement that leaves the binding of [x] as it found it, whether it
    completes or raises. *)
Definition keeps (x : string) {A} (m : M A) : Prop :=
  forall st, globals (m st).1 !! x = globals st !! x.

End AfterLoading.

(** ** States along the loads, and worlds that make a run stop early *)

Section Loads.
Context `{L : Sklearn}.

(** The state after line 35: the configuration read from [path]. *)
Definition after_config (model_type path : string) (config : Json) (w : World) : State :=
  {| globals := <["config" := VData config]>
                  (<["f" := VFile path]> (globals (after_constants model_type w)));
     world := world (after_constants model_type w) |}.

(** The state after line 38: the table read from the data file as well. *)
Definition after_loads (model_type path : string) (config : Json) (df : DataFrame)
    (w : World) : State :=
  {| globals := <["df" := VFrame df]> (globals (after_config model_type path config w));
     world := world (after_constants model_type w) |}.

(** The state after line 41. *)
Definition after_features (model_type path : string) (config : Json) (df : DataFrame)
    (features : Json) (w : World) : State :=
  {| globals := <["features" := VData features]>
                  (globals (after_loads model_type path config df w));
     world := world (after_constants model_type w) |}.

(** The state after line 42. *)
Definition after_selection (model_type path : string) (config : Json) (df : DataFrame)
    (features : Json) (X : DataFrame) (w : World) : State :=
  {| globals := <["X" := VFrame X]>
                  (globals (after_features model_type path config df features w));
     world := world (after_constants model_type w) |}.

End Loads.

(** A world that holds the configuration file but no data file. *)
Definition config_only_world : @World demo_sklearn :=
  make_world {[ "configs/RandomForest.json" := FJson nested_config ]}
             "2024-05-01 10:00:00" 7.

(** A configuration that asks for a feature the table does not have. *)
Definition stray_feature_config : Json :=
  JDict {[ "feature_selection" :=
             JDict {[ "features_to_keep" := JList [JStr "a"; JStr "c"] ]};
           "target_variable" := JStr "y";
           "missing_value_imputation" := JDict {[ "enabled" := JBool false ]};
           "data_split" := split_section;
           "model" := model_section ]}.

Definition stray_feature_world : @World demo_sklearn :=
  make_world (files_with stray_feature_config ten_rows) "2024-05-01 10:00:00" 7.

(** A configuration whose target is not a column of the table. *)
Definition stray_target_config : Json :=
  JDict {[ "feature_selection" :=
             JDict {[ "features_to_keep" := JList [JStr "a"; JStr "b"] ]};
           "target_variable" := JStr "z";
           "missing_value_imputation" := JDict {[ "enabled" := JBool false ]};
           "data_split" := split_section;
           "model" := model_section ]}.

Definition stray_target_world : @World demo_sklearn :=
  make_world (files_with stray_target_config ten_rows) "2024-05-01 10:00:00" 7.

(** The inputs of the demonstration run on a disk on which nothing can be
    created: line 108 raises, inside the [with] block, after the metrics and
    the model have been logged. *)
Definition read_only_world : @World demo_sklearn :=
  {| fs := files_with nested_config ten_rows; writable := fun _ => false;
     clock := "2024-05-01 10:00:00"; entropy := 7;
     pyplot := blank_figure; mlflow := fresh_mlflow; stdout := [] |}.

(** A state in which only the run name is bound. *)
Definition named_state (name : string) (w : @World demo_sklearn) : @State demo_sklearn :=
  {| globals := {[ "run_name" := VData (JStr name) ]}; world := w |}.

(** A state in which only the configuration is bound. *)
Definition configured_state (config : Json) : @State demo_sklearn :=
  {| globals := {[ "config" := VData config ]}; world := demo_world |}.

(** ** What statements leave alone *)

Section Invariants.
Context `{L : Sklearn}.

(** A property of states that a statement preserves, whether it completes or
    raises. *)
Definition invariant (P : State -> Prop) {A} (m : M A) : Prop :=
  forall st, P st -> P (m st).1.

(** A statement that only reads. *)
Definition reads {A} (m : M A) : Prop := forall st, (m st).1 = st.

(** Properties of the world alone. *)
Definition of_world (P : State -> Prop) : Prop :=
  forall g g' w, P {| globals := g; world := w |} -> P {| globals := g'; world := w |}.

(** What an observer outside the interpreter sees of the world [w]: the
    files, the printed lines and the MLflow runs. *)
Definition untouched (w : World) (st : State) : Prop :=
  fs (world st) = fs w
  /\ stdout (world st) = stdout w
  /\ store (mlflow (world st)) = store (mlflow w)
  /\ active_run (mlflow (world st)) = active_run (mlflow w).

Definition printed (out : list string) (st : State) : Prop :=
  stdout (world st) = out.

(** Inside the [with] block of line 81: the stored runs are [runs] and the
    active run, still running, has the name and the experiment it was started
    with. *)
Definition in_block (name exp : string) (runs : list Run) (st : State) : Prop :=
  store (mlflow (world st)) = runs
  /\ exists r, active_run (mlflow (world st)) = Some r
               /\ run_name r = name /\ experiment r = exp /\ status r = RUNNING.


(** The variables from which the script takes the paths it writes to. *)
Definition path_variables : list string :=
  ["artifact_dir"; "eda_dir"; "boxplot_dir"; "config_path"; "boxplot_path"; "corr_path"].

Definition absolute_paths (g : gmap string Value) : Prop :=
  (forall x s, x ∈ path_variables -> g !! x = Some (VData (JStr s)) ->
               starts_with_slash s = true)
  /\ (forall path, g !! "config_file" = Some (VFile path) -> starts_with_slash path = true).

(** The file at [path] is [content] (or absent), and every path the script
    may still write to is absolute. *)
Definition file_kept (path : string) (content : option File) (st : State) : Prop :=
  fs (world st) !! path = content /\ absolute_paths (globals st).

End Invariants.

(** ** Contents of an imputed frame *)

(** No cell is missing. *)
Definition complete_frame (X : DataFrame) : Prop :=
  Forall (fun c : list Cell => Forall is_Some c) (cols X).*2.

(** Column by column, [X'] holds every value [X] holds, at the same row. *)
Definition keeps_observed (X X' : DataFrame) : Prop :=
  Forall2 (Forall2 (fun c c' : Cell => forall q, c = Some q -> c' = Some q))
          (cols X).*2 (cols X').*2.


(** * Properties *)

Section Properties.
Context `{L : Sklearn}.

(** ** Running statements *)

Lemma bind_run {A B} (m : M A) (k : A -> M B) st :
  (m ≫= k) st = match m st with
                | (st', Ok a) => k a st'
                | (st', Raise e) => (st', Raise e)
                end.
Proof. reflexivity. Qed.

Lemma bind_ok_inv {A B} (m : M A) (k : A -> M B) st st' b :
  (m ≫= k) st = (st', Ok b) ->
  exists st1 a, m st = (st1, Ok a) /\ k a st1 = (st', Ok b).
Proof.
  rewrite bind_run. destruct (m st) as [st1 [a|e]]; [eauto | discriminate].
Qed.

Lemma ret_inv {A} (a : A) st st' r :
  ret a st = (st', r) -> st' = st /\ r = Ok a.
Proof. unfold ret. by intros [= <- <-]. Qed.

Lemma raise_inv {A} e st st' (r : result A) :
  raise e st = (st', r) -> st' = st /\ r = Raise e.
Proof. unfold raise. by intros [= <- <-]. Qed.

Lemma lift_inv {A} (r0 : result A) st st' r :
  lift r0 st = (st', r) -> st' = st /\ r0 = r.
Proof. unfold lift. by intros [= <- <-]. Qed.

Lemma var_ok_inv x st st' v :
  var x st = (st', Ok v) -> st' = st /\ globals st !! x = Some v.
Proof. unfold var. destruct (globals st !! x); by intros [= <- <-]. Qed.

Lemma assign_inv x v st st' r :
  assign x v st = (st', r) ->
  st' = {| globals := <[x := v]> (globals st); world := world st |} /\ r = Ok tt.
Proof. unfold assign. by intros [= <- <-]. Qed.

Lemma get_world_inv st st' r :
  get_world st = (st', r) -> st' = st /\ r = Ok (world st).
Proof. unfold get_world. by intros [= <- <-]. Qed.

Lemma modify_world_inv f st st' r :
  modify_world f st = (st', r) ->
  st' = {| globals := globals st; world := f (world st) |} /\ r = Ok tt.
Proof. unfold modify_world. by intros [= <- <-]. Qed.

Lemma leave_run_ok_inv body st st' u :
  leave_run body st = (st', Ok u) ->
  exists st1, body st = (st1, Ok tt)
              /\ st' = {| globals := globals st1; world := end_run FINISHED (world st1) |}.
Proof.
  unfold leave_run. destruct (body st) as [st1 [[]|e]]; intros [= <- <-]; eauto.
Qed.

Lemma var_run x st v : globals st !! x = Some v -> var x st = (st, Ok v).
Proof. unfold var. by intros ->. Qed.

(** Reading what the namespace holds at a name. *)
Ltac lookup_in H :=
  cbn [globals world] in H;
  repeat first
    [ rewrite lookup_insert_eq in H
    | rewrite lookup_insert_ne in H by discriminate
    | rewrite lookup_empty in H
    | match goal with
      | F : ?m !! ?x = _ |- _ =>
          tryif constr_eq F H then fail else
          lazymatch type of H with context [m !! x] => rewrite F in H end
      end ].

Ltac lookup_goal :=
  cbn [globals world];
  repeat first
    [ rewrite lookup_insert_eq
    | rewrite lookup_insert_ne by discriminate
    | rewrite lookup_empty
    | match goal with
      | F : ?m !! ?x = _ |- context [?m !! ?x] => rewrite F
      end ].

(** Projections of a world that was updated field by field. *)
Ltac norm_world H :=
  cbn [globals world fs writable clock entropy pyplot mlflow stdout
       set_fs set_pyplot set_mlflow set_stdout on_run the_run
       tracking_uri autologging current_experiment active_run store
       set_tracking_uri set_autologging set_experiment set_active_run set_store
       artists title blank_figure app] in H.

Ltac norm_world_goal :=
  cbn [globals world fs writable clock entropy pyplot mlflow stdout
       set_fs set_pyplot set_mlflow set_stdout on_run the_run
       tracking_uri autologging current_experiment active_run store
       set_tracking_uri set_autologging set_experiment set_active_run set_store
       artists title blank_figure app].

Ltac use_known H :=
  cbn [as_str as_dict] in H;
  try (lazymatch type of H with
       | ?r0 = _ =>
           match goal with
           | F : r0 = _ |- _ =>
               tryif constr_eq F H then fail else (rewrite F in H; simplify_eq)
           end
       end).

(** What to do with a completed loop; set where the loop lemma is at hand. *)
Ltac exec_loop H := idtac.

(** Taking a successful execution apart, statement by statement. *)
Ltac exec H :=
  cbv beta iota in H; norm_world H;
  try (rewrite lookup_insert_eq in H; cbv beta iota in H);
  lazymatch type of H with
  | (?m ≫= ?k) ?st = (_, Ok _) =>
      let st1 := fresh "st" in
      let a := fresh "a" in
      let H1 := fresh "E" in
      apply bind_ok_inv in H; destruct H as (st1 & a & H1 & H);
      exec H1; exec H
  | ret _ _ = _ =>
      apply ret_inv in H; destruct H as [? H]; subst; try (injection H as H; subst)
  | raise _ _ = (_, Ok _) =>
      apply raise_inv in H; destruct H as [? H]; discriminate H
  | lift _ _ = _ =>
      apply lift_inv in H; destruct H as [? H]; subst; use_known H;
      try (injection H as H; subst)
  | var _ _ = (_, Ok _) =>
      apply var_ok_inv in H; destruct H as [? H]; subst; lookup_in H;
      try (injection H as H; subst)
  | assign _ _ _ = _ =>
      apply assign_inv in H; destruct H as [? _]; subst
  | get_world _ = _ =>
      apply get_world_inv in H; destruct H as [? H]; injection H as H; subst
  | modify_world _ _ = _ =>
      apply modify_world_inv in H; destruct H as [? _]; subst
  | leave_run _ _ = (_, Ok _) =>
      let st1 := fresh "st" in
      apply leave_run_ok_inv in H; destruct H as (st1 & H & ?); exec H; subst
  | line_117 _ = (_, Ok _) => exec_loop H
  | (match ?x with _ => _ end) _ = (_, Ok _) =>
      let E := fresh "E" in
      destruct x eqn:E; try congruence; try (exec H)
  | (if ?x then _ else _) _ = (_, Ok _) =>
      let E := fresh "E" in
      destruct x eqn:E; try congruence; try (exec H)
  | _ => idtac
  end.

(** Running a statement forwards on a state whose bindings are known. *)
Ltac fwd :=
  repeat (first
    [ rewrite bind_run
    | erewrite var_run by (lookup_goal; reflexivity)
    | progress unfold lift, assign, ret, raise, get_world, modify_world ];
    cbv beta iota).

Create HintDb py discriminated.
#[local] Hint Unfold
  var_data var_str var_frame var_series var_array var_estimator
  var_predictions var_float
  write_file log_param log_params log_metric log_model log_artifact
  start_run with_run plt_figure plt_draw plt_title plt_savefig plt_close build
  line_18 line_20 line_22 line_25 line_32 line_34 line_38 line_41 line_42
  line_43 line_46 line_47 line_48 line_49 line_50 line_53 line_54 line_55
  line_58 line_60 line_72 line_75 line_76 line_79 line_81 line_83 line_86
  line_89 line_90 line_91 line_92 line_95 line_96 line_97 line_98 line_99
  line_100 line_103 line_106 line_107 line_108 line_111 line_112 line_114
  line_127 lines_128_134 line_136 : py.

(** ** The configuration lookup at line 34 *)

Lemma constants_run mt w :
  constants mt {| globals := ∅; world := w |} = (after_constants mt w, Ok tt).
Proof. reflexivity. Qed.

Lemma no_config_file mt :
  ~ supported mt -> mt <> "SVR" /\ model_config_files !! mt = None.
Proof.
  unfold supported. intros H. rewrite !elem_of_cons in H.
  split; [ naive_solver | ].
  unfold model_config_files.
  rewrite !lookup_insert_ne by naive_solver.
  apply lookup_singleton_ne. naive_solver.
Qed.

Lemma line_34_no_entry mt w :
  model_config_files !! mt = None ->
  line_34 (after_constants mt w) = (after_constants mt w, Raise (KeyError mt)).
Proof.
  intros H. unfold line_34. rewrite bind_run.
  change (var_data "model_config_files" (after_constants mt w))
    with (after_constants mt w, Ok (JDict model_config_files)).
  cbv iota beta. rewrite bind_run.
  change (var_str "model_type" (after_constants mt w))
    with (after_constants mt w, Ok mt).
  cbv iota beta. rewrite bind_run. unfold lift at 1. simpl getitem. rewrite H.
  reflexivity.
Qed.

(** Every model type without an entry in [model_config_files] stops the run at
    line 34 with a [KeyError]; nothing after the constants has happened. *)
Lemma run_without_entry mt w :
  model_config_files !! mt = None ->
  run mt w = (after_constants mt w, Raise (KeyError mt)).
Proof.
  intros H. unfold run, train_py, prepare.
  rewrite 2!bind_run, constants_run. cbv iota beta.
  rewrite bind_run, (line_34_no_entry _ _ H). reflexivity.
Qed.

Lemma nothing_trained mt w :
  globals (after_constants mt w) !! "model" = None
  /\ globals (after_constants mt w) !! "config" = None
  /\ fs (world (after_constants mt w)) = fs w
  /\ active_run (mlflow (world (after_constants mt w))) = active_run (mlflow w)
  /\ store (mlflow (world (after_constants mt w))) = store (mlflow w).
Proof. repeat split. Qed.

(** The [else] branch at line 69, taken on its own. *)
Lemma line_60_unsupported mt hp w :
  ~ supported mt ->
  line_60 (at_dispatch mt hp w)
  = (at_dispatch mt hp w, Raise (ValueError ("Model type " +:+ mt +:+ " is not supported."))).
Proof.
  unfold supported. intros H. rewrite !elem_of_cons in H.
  unfold line_60. rewrite bind_run.
  change (var_str "model_type" (at_dispatch mt hp w)) with (at_dispatch mt hp w, Ok mt).
  cbv iota beta.
  repeat match goal with
         | |- context [String.eqb mt ?s] =>
             destruct (String.eqb_spec mt s) as [->|_]; [ exfalso; naive_solver | ]
         end.
  reflexivity.
Qed.

(** C1, at the model type "GradientBoostingRegressor": the run raises
    [KeyError] at the configuration lookup of line 34, not the [ValueError] of
    line 69, although the dispatch at line 60 would raise that [ValueError]
    for the same string; no model has been built and the stores are
    untouched. *)
Theorem unsupported_model_type_raises_KeyError (w : World) :
  (run "GradientBoostingRegressor" w).2 = Raise (KeyError "GradientBoostingRegressor")
  /\ (run "GradientBoostingRegressor" w).2
     <> Raise (ValueError "Model type GradientBoostingRegressor is not supported.")
  /\ (line_60 (at_dispatch "GradientBoostingRegressor" (JDict ∅) w)).2
     = Raise (ValueError "Model type GradientBoostingRegressor is not supported.")
  /\ globals (run "GradientBoostingRegressor" w).1 !! "model" = None
  /\ store (mlflow (world (run "GradientBoostingRegressor" w).1)) = store (mlflow w).
Proof.
  assert (E : run "GradientBoostingRegressor" w
              = (after_constants "GradientBoostingRegressor" w,
                 Raise (KeyError "GradientBoostingRegressor")))
    by (apply run_without_entry; reflexivity).
  rewrite E. repeat split; discriminate.
Qed.

(** C2: with model type "SVR" the run stops at line 34 with [KeyError "SVR"],
    because [model_config_files] has no entry for it, before any
    configuration is loaded; yet the dispatch at line 60 has an SVR branch,
    which builds an SVR estimator. *)
Theorem svr_raises_KeyError_at_config_loading (w : World) :
  model_config_files !! "SVR" = None
  /\ run "SVR" w = (after_constants "SVR" w, Raise (KeyError "SVR"))
  /\ globals (after_constants "SVR" w) !! "config" = None
  /\ line_60 (at_dispatch "SVR" (JDict ∅) w)
     = ({| globals := <["model" := VEstimator {| kind := SVR; hyper := ∅; fitted := None |}]>
                        (globals (at_dispatch "SVR" (JDict ∅) w));
           world := w |}, Ok tt).
Proof.
  split; [ reflexivity | ].
  split; [ apply run_without_entry; reflexivity | ].
  split; reflexivity.
Qed.

Lemma getitem_dict_inv d k v : getitem (JDict d) k = Ok v -> d !! k = Some v.
Proof. simpl. destruct (d !! k); [ by intros [= ->] | discriminate ]. Qed.

Lemma as_str_inv j s : as_str j = Ok s -> j = JStr s.
Proof. destruct j; try discriminate. by intros [= ->]. Qed.

Lemma as_dict_inv j d : as_dict j = Ok d -> j = JDict d.
Proof. destruct j; try discriminate. by intros [= ->]. Qed.

(** ** Imputation (lines 46 to 50) *)

Lemma rmapM_length {A B} (f : A -> result B) l l' :
  rmapM f l = Ok l' -> length l' = length l.
Proof.
  revert l'. induction l as [|a l IH]; intros l'; simpl.
  - by intros [= <-].
  - destruct (f a) as [b|]; simpl; [ | discriminate ].
    destruct (rmapM f l) as [bs|]; simpl; [ | discriminate ].
    intros [= <-]. simpl. f_equal. by apply IH.
Qed.

Lemma getitem_cols_ok d names X :
  getitem_cols d names = Ok X -> nrows X = nrows d /\ columns X = names.
Proof.
  unfold getitem_cols, columns.
  destruct (rmapM _ names) as [cs|] eqn:E; simpl; [ | discriminate ].
  intros [= <-]. simpl. split; [ reflexivity | ].
  revert cs E. induction names as [|n names IH]; intros cs; simpl.
  - by intros [= <-].
  - destruct (getitem_col d n) as [c|]; simpl; [ | discriminate ].
    destruct (rmapM _ names) as [cs'|]; simpl; [ | discriminate ].
    intros [= <-]. simpl. f_equal. by apply IH.
Qed.

Lemma DataFrame_of_array_ok arr names X :
  DataFrame_of_array arr names = Ok X ->
  length (arr_cols arr) = length names
  /\ nrows X = arr_rows arr
  /\ columns X = names
  /\ (cols X).*2 = arr_cols arr.
Proof.
  unfold DataFrame_of_array, columns.
  destruct (Nat.eqb_spec (length (arr_cols arr)) (length names)) as [E|]; [ | discriminate ].
  intros [= <-]. simpl. split; [ done | ]. split; [ done | ].
  split; [ apply fst_zip | apply snd_zip ]; lia.
Qed.

Lemma fit_transform_ok strategy X arr :
  fit_transform strategy X = Ok arr ->
  exists s, parse_strategy strategy = Ok s
            /\ nrows X <> 0
            /\ arr_rows arr = nrows X
            /\ arr_cols arr = omap (fun nc : string * list Cell => impute_column s nc.2) (cols X).
Proof.
  unfold fit_transform.
  destruct (parse_strategy strategy) as [s|]; simpl; [ | discriminate ].
  destruct (Nat.eqb_spec (nrows X) 0); [ discriminate | ].
  destruct (length (cols X) =? 0)%nat; [ discriminate | ].
  intros [= <-]. eauto.
Qed.

Lemma length_omap_le {A B} (f : A -> option B) l : length (omap f l) <= length l.
Proof. induction l as [|a l IH]; csimpl; [ lia | ]. destruct (f a); csimpl; lia. Qed.

Lemma omap_full {A B} (f : A -> option B) l :
  length (omap f l) = length l -> Forall2 (fun a b => f a = Some b) l (omap f l).
Proof.
  induction l as [|a l IH]; csimpl; [ constructor | ].
  pose proof (length_omap_le f l).
  destruct (f a) eqn:E; csimpl; intros Hlen; [ | lia ].
  constructor; [ done | apply IH; lia ].
Qed.






(** ** Lines 18 to 69 *)

Lemma prepare_ok mt w st :
  prepare mt {| globals := ∅; world := w |} = (st, Ok tt) ->
  exists config df names X y test_size random_state parts hyperparameters model,
    prepared mt w st config df names X y test_size random_state parts hyperparameters model.
Proof.
  intros H. unfold prepare, constants in H.
  autounfold with py in H.
  exec H.
  all: cbn [globals world].
  all: repeat match goal with
         | E : getitem (JDict _) _ = Ok _ |- _ => apply getitem_dict_inv in E
         | E : as_str _ = Ok _ |- _ => apply as_str_inv in E; subst
         end.
  all: do 10 eexists.
  all: split;
    try (lookup_goal; reflexivity);
    try eassumption;
    try reflexivity.
  all: try (unfold kind_of, imputation_result;
            repeat match goal with E : (_ =? _)%string = _ |- _ => rewrite E end).
  all: eauto 10.
  all: eexists; split; [ eassumption | ].
  all: do 2 eexists; split; [ eassumption | ]; split; [ eassumption | ].
  all: match goal with E : truthy _ = _ |- _ => rewrite E end; eauto 10.
Qed.

(** ** The loop at line 117 *)

Lemma add_artifacts_nil r : add_artifacts [] r = r.
Proof. destruct r. unfold add_artifacts. cbn. by rewrite app_nil_r. Qed.

Lemma add_artifacts_cons e es r :
  add_artifacts es (add_artifact e.1 e.2 r) = add_artifacts (e :: es) r.
Proof. destruct r, e. unfold add_artifacts, add_artifact. cbn. by rewrite <- app_assoc. Qed.

Lemma world_unchanged (w : World) r :
  active_run (mlflow w) = Some r ->
  set_mlflow (set_active_run (Some r) (mlflow w)) (set_pyplot (pyplot w) (set_fs (fs w) w)) = w.
Proof.
  destruct w as [f wr cl en py [u al ce ar sr] so]. cbn. by intros ->.
Qed.

Lemma boxplot_loop l : forall st st' X r,
  for_each l lines_118_124 st = (st', Ok tt) ->
  globals st !! "X" = Some (VFrame X) ->
  globals st !! "boxplot_dir" = Some (VData (JStr boxplot_dir)) ->
  active_run (mlflow (world st)) = Some r ->
  exists g' files figure,
    st' = {| globals := g';
             world := set_mlflow (set_active_run
                                    (Some (add_artifacts (boxplot_artifact boxplot_dir X <$> l) r))
                                    (mlflow (world st)))
                        (set_pyplot figure (set_fs files (world st))) |}
    /\ forall x, x <> "column" -> x <> "boxplot_path" -> g' !! x = globals st !! x.
Proof.
  induction l as [|c l IH]; intros st st' X r H HX Hdir Hrun.
  - simpl in H. exec H. destruct st as [g w]. cbn [globals world] in *.
    exists g, (fs w), (pyplot w). split; [ | done ].
    by rewrite fmap_nil, add_artifacts_nil, world_unchanged.
  - simpl in H. apply bind_ok_inv in H. destruct H as (st1 & [] & Hbody & H).
    unfold lines_118_124 in Hbody. autounfold with py in Hbody. exec Hbody.
    unfold getitem_col in E. destruct (find_col a1 (cols X)) as [series|] eqn:Hcol;
      [ injection E as -> | discriminate E ].
    destruct st as [g w]. destruct w as [f wr cl en py [u al ce ar sr] so].
    cbn in Hrun. subst ar. cbn [globals world] in *.
    eapply IH with (X := X) in H; [ | lookup_goal; reflexivity.. | reflexivity ].
    destruct H as (g' & files & figure & -> & Hkeep).
    exists g', files, figure. split.
    + assert (Hart : boxplot_artifact boxplot_dir X a1
                     = (path_join boxplot_dir (a1 +:+ "_boxplot.png"),
                        FImage {| artists := [BoxplotOf a2];
                                  title := "Boxplot of " +:+ a1 |})).
      { unfold boxplot_artifact, boxplot_figure, boxplot_path. by rewrite Hcol. }
      rewrite fmap_cons, <- add_artifacts_cons, Hart. reflexivity.
    + intros x Hx1 Hx2. rewrite Hkeep by done. cbn.
      by rewrite !lookup_insert_ne.
Qed.

Lemma line_117_ok st st' r :
  line_117 st = (st', Ok tt) ->
  globals st !! "boxplot_dir" = Some (VData (JStr boxplot_dir)) ->
  active_run (mlflow (world st)) = Some r ->
  exists X g' files figure,
    globals st !! "X" = Some (VFrame X)
    /\ st' = {| globals := g';
                world := set_mlflow (set_active_run
                                       (Some (add_artifacts
                                                (boxplot_artifact boxplot_dir X <$> columns X) r))
                                       (mlflow (world st)))
                           (set_pyplot figure (set_fs files (world st))) |}
    /\ forall x, x <> "column" -> x <> "boxplot_path" -> g' !! x = globals st !! x.
Proof.
  intros H Hdir Hrun. unfold line_117 in H. autounfold with py in H.
  apply bind_ok_inv in H. destruct H as (st1 & X & HX & H).
  exec HX.
  match goal with
  | HX' : globals st !! "X" = Some (VFrame ?X') |- _ =>
      exists X';
      destruct (boxplot_loop _ _ _ X' r H) as (g' & files & figure & Hst & Hkeep);
      eauto 10
  end.
Qed.

(** ** The [with] block at line 81 *)

Ltac exec_loop H ::=
  let g' := fresh "g" in
  let files := fresh "files" in
  let figure := fresh "figure" in
  let Hkeep := fresh "Hkeep" in
  repeat match goal with u : unit |- _ => destruct u end;
  norm_world H;
  let X := fresh "X" in
  let HX0 := fresh "HX" in
  eapply line_117_ok in H;
    [ | lookup_goal; reflexivity | reflexivity ];
  destruct H as (X & g' & files & figure & HX0 & -> & Hkeep);
  cbn [globals world] in Hkeep;
  lookup_in HX0;
  let HX := fresh "HX" in
  pose proof (Hkeep "X" ltac:(discriminate) ltac:(discriminate)) as HX;
  lookup_in HX;
  let Heda := fresh "Heda" in
  pose proof (Hkeep "eda_dir" ltac:(discriminate) ltac:(discriminate)) as Heda;
  lookup_in Heda.

Lemma line_81_ok st st' :
  line_81 st = (st', Ok tt) ->
  globals st !! "artifact_dir" = Some (VData (JStr artifact_dir)) ->
  exists model_type config X parts model f predictions mse mae rmse r2,
    logged st st' model_type config X parts model f predictions mse mae rmse r2.
Proof.
  intros H Hdir. unfold line_81 in H. autounfold with py in H.
  unfold fit_and_evaluate, evaluate, log_everything in H. autounfold with py in H.
  exec H.
  repeat match goal with
         | E : as_str _ = Ok _ |- _ => apply as_str_inv in E; subst
         | E : as_dict _ = Ok _ |- _ => apply as_dict_inv in E; subst
         | E : fitted _ = Some _ |- _ => cbn in E; injection E as <-
         end.
  cbn [globals world].
  match goal with
  | H1 : globals st !! "X_train" = Some (VFrame ?a),
    H2 : globals st !! "X_test" = Some (VFrame ?b),
    H3 : globals st !! "y_train" = Some (VSeries ?c),
    H4 : globals st !! "y_test" = Some (VSeries ?d) |- _ =>
      eexists _, _, _, (a, b, c, d); do 7 eexists
  end.
  split; cbn [fst snd globals world]; try eassumption.
  all: try (unfold end_run; norm_world_goal; reflexivity).
  all: try (rewrite ?lookup_insert_ne by discriminate;
            rewrite Hkeep by discriminate; lookup_goal; reflexivity).
  - do 2 eexists. split; [ eassumption | ]. split; [ eassumption | ].
    unfold end_run. norm_world_goal. reflexivity.
  - intros x Hx.
    repeat (apply elem_of_cons in Hx as [->|Hx];
            [ rewrite !lookup_insert_ne by discriminate;
              rewrite Hkeep by discriminate;
              rewrite !lookup_insert_ne by discriminate; reflexivity | ]).
    by apply elem_of_nil in Hx.
Qed.


(** ** A completed run *)

Lemma run_ok mt w st :
  run mt w = (st, Ok tt) ->
  exists config df names X y test_size random_state parts hp model f predictions
         mse mae rmse r2,
    completed mt w st config df names X y test_size random_state parts hp model f
              predictions mse mae rmse r2.
Proof.
  intros H. unfold run, train_py in H.
  apply bind_ok_inv in H. destruct H as (st1 & [] & Hprep & H).
  apply prepare_ok in Hprep.
  destruct Hprep as (config & df & names & X & y & ts & rs & parts & hpj & model & Hprep).
  pose proof Hprep as [].
  unfold line_72, line_75, line_76, line_79, line_136, var_str, var_data in H.
  exec H.
  repeat match goal with u : unit |- _ => destruct u end.
  match goal with
  | E : line_81 _ = _ |- _ =>
      apply line_81_ok in E; [ | lookup_goal; reflexivity ];
      destruct E as (mt' & config' & X' & parts' & model' & f & predictions
                     & mse & mae & rmse & r2 & [])
  end.
  repeat match goal with
         | F : globals {| globals := _; world := _ |} !! _ = Some _ |- _ =>
             lookup_in F; injection F; clear F; intros; subst
         end.
  match goal with
  | F : exists name hyperparameters, _ |- _ =>
      destruct F as (name & hp & Hname & Hhp & Hstore);
      lookup_in Hname; injection Hname as <-;
      lookup_in Hhp; injection Hhp as ->
  end.
  cbn [globals world] in *.
  unfold after_constants in p_world0. cbn [world] in p_world0.
  rewrite p_world0 in l_fit0, Hstore, l_keeps0.
  norm_world l_fit0. norm_world Hstore. norm_world l_keeps0. norm_world_goal.
  repeat match goal with
         | F : parts.2 = _ |- _ => rewrite <- F in *; clear F
         | F : parts.1.2 = _ |- _ => rewrite <- F in *; clear F
         | F : parts.1.1.2 = _ |- _ => rewrite <- F in *; clear F
         | F : parts.1.1.1 = _ |- _ => rewrite <- F in *; clear F
         end.
  exists config', df, names, X', y, ts, rs, parts, hp, model', f, predictions,
         mse, mae, rmse, r2.
  split; try eassumption.
  - exists st1. split; [ exact Hprep | ].
    intros x Hx. rewrite l_keeps0 by exact Hx.
    unfold settled in Hx.
    repeat (apply elem_of_cons in Hx as [->|Hx];
            [ by rewrite !lookup_insert_ne by discriminate | ]).
    by apply elem_of_nil in Hx.
Qed.

Ltac in_list :=
  unfold settled;
  repeat (apply elem_of_cons; first [ left; reflexivity | right ]).

(** ** Bindings that later statements leave alone *)

Lemma keeps_bind x {A B} (m : M A) (k : A -> M B) :
  keeps x m -> (forall a, keeps x (k a)) -> keeps x (m ≫= k).
Proof.
  intros Hm Hk st. rewrite bind_run. specialize (Hm st).
  destruct (m st) as [st1 [a|e]]; cbn in *; [ | done ].
  by rewrite Hk.
Qed.

Lemma keeps_ret x {A} (a : A) : keeps x (ret a).
Proof. done. Qed.

Lemma keeps_raise x {A} e : keeps x (@raise _ A e).
Proof. done. Qed.

Lemma keeps_lift x {A} (r : result A) : keeps x (lift r).
Proof. done. Qed.

Lemma keeps_var x y : keeps x (var y).
Proof. intros st. unfold var. by destruct (globals st !! y). Qed.

Lemma keeps_get_world x : keeps x get_world.
Proof. done. Qed.

Lemma keeps_modify_world x f : keeps x (modify_world f).
Proof. done. Qed.

Lemma keeps_assign x y v : x <> y -> keeps x (assign y v).
Proof. intros Hxy st. cbn. by rewrite lookup_insert_ne. Qed.

Lemma keeps_for_each x {A} (l : list A) body :
  (forall a, keeps x (body a)) -> keeps x (for_each l body).
Proof.
  intros Hbody. induction l as [|a l IH]; [ done | ].
  cbn [for_each]. apply (keeps_bind x (body a) (fun _ => for_each l body)); auto.
Qed.

Lemma keeps_leave_run x body : keeps x body -> keeps x (leave_run body).
Proof.
  intros Hbody st. unfold leave_run. specialize (Hbody st).
  by destruct (body st) as [st1 [[]|e]].
Qed.

Ltac keeps_tac :=
  repeat first
    [ apply keeps_bind; [ | intros ? ]
    | apply keeps_ret
    | apply keeps_raise
    | apply keeps_lift
    | apply keeps_var
    | apply keeps_get_world
    | apply keeps_modify_world
    | apply keeps_assign; discriminate
    | apply keeps_for_each; intros ?
    | apply keeps_leave_run
    | match goal with
      | |- keeps _ (match ?v with _ => _ end) => destruct v
      | |- keeps _ (if ?b then _ else _) => destruct b
      end ].

Lemma after_loading_keeps_config : keeps "config" after_loading.
Proof.
  unfold after_loading, line_117, lines_118_124, fit_and_evaluate, evaluate, log_everything.
  autounfold with py.
  unfold line_117, lines_118_124, fit_and_evaluate, evaluate, log_everything.
  autounfold with py.
  keeps_tac.
Qed.

Lemma after_loading_keeps_df : keeps "df" after_loading.
Proof.
  unfold after_loading, line_117, lines_118_124, fit_and_evaluate, evaluate, log_everything.
  autounfold with py.
  unfold line_117, lines_118_124, fit_and_evaluate, evaluate, log_everything.
  autounfold with py.
  keeps_tac.
Qed.

Lemma line_38_keeps_config : keeps "config" line_38.
Proof. autounfold with py. keeps_tac. Qed.

Lemma bind_assoc_run {A B C} (m : M A) (k : A -> M B) (k' : B -> M C) st :
  ((m ≫= k) ≫= k') st = (m ≫= fun a => k a ≫= k') st.
Proof. rewrite !bind_run. by destruct (m st) as [st1 [a|e]]. Qed.

Lemma bind_ext {A B} (m : M A) (k k' : A -> M B) st :
  (forall a st', k a st' = k' a st') -> (m ≫= k) st = (m ≫= k') st.
Proof. intros H. rewrite !bind_run. destruct (m st) as [st1 [a|e]]; auto. Qed.

(** The script is the two loads followed by [after_loading]. *)
Lemma train_py_after_loading mt st :
  train_py mt st = (constants mt;; line_34;; line_38;; after_loading) st.
Proof.
  unfold train_py, prepare, after_loading. revert st.
  repeat (intros ?st; rewrite bind_assoc_run; apply bind_ext; intros ?).
  reflexivity.
Qed.

(** C9: after the loads at lines 34 and 38, no statement of the script
    rebinds or changes [config] or [df], whether the run completes or stops
    with an exception; and in a completed run both still hold what the files
    held, and the configuration snapshot logged to MLflow is that same
    configuration. *)
Theorem config_and_dataset_never_mutated :
  keeps "config" line_38
  /\ keeps "config" after_loading
  /\ keeps "df" after_loading
  /\ (forall mt st, train_py mt st = (constants mt;; line_34;; line_38;; after_loading) st)
  /\ (forall mt w st,
        run mt w = (st, Ok tt) ->
        exists path config df record,
          model_config_files !! mt = Some (JStr path)
          /\ fs w !! path = Some (FJson config)
          /\ fs w !! "data/processed_data/cleaned_data.csv" = Some (FCsv df)
          /\ globals st !! "config" = Some (VData config)
          /\ globals st !! "df" = Some (VFrame df)
          /\ last (store (mlflow (world st))) = Some record
          /\ (config_path mt, FJson config) ∈ artifacts record).
Proof.
  split; [ exact line_38_keeps_config | ].
  split; [ exact after_loading_keeps_config | ].
  split; [ exact after_loading_keeps_df | ].
  split; [ exact train_py_after_loading | ].
  intros mt w st H.
  destruct (run_ok _ _ _ H)
    as (config & df & names & X & y & ts & rs & parts & hp & model & f & preds
        & mse & mae & rmse & r2 & [(st1 & Hprep & Hkeep) _ _ _ _ _ _ Hstore _ _ _ _]).
  destruct Hprep.
  destruct p_entry0 as (path & Hpath & Hfile).
  eexists path, config, df, _.
  split; [ done | ]. split; [ done | ]. split; [ done | ].
  split; [ rewrite Hkeep by in_list; done | ].
  split; [ rewrite Hkeep by in_list; done | ].
  split; [ rewrite Hstore; apply last_snoc | ].
  cbn. apply elem_of_cons. by left.
Qed.


(** ** The boxplots of a completed run *)

Lemma imputation_result_columns config df names X0 X :
  getitem_cols df names = Ok X0 ->
  imputation_result config names X0 X ->
  columns X = names /\ nrows X = nrows df.
Proof.
  intros [Hrows Hcols]%getitem_cols_ok (mvi & enabled & _ & _ & H).
  destruct (truthy enabled).
  - destruct H as (strategy & arr & _ & Hfit & Hframe).
    apply fit_transform_ok in Hfit as (s & _ & _ & Harr & _).
    apply DataFrame_of_array_ok in Hframe as (_ & Hn & Hc & _).
    split; [ done | congruence ].
  - by subst.
Qed.

Lemma as_str_list_length features names :
  as_str_list features = Ok names ->
  exists l, features = JList l /\ length l = length names.
Proof.
  destruct features; try discriminate. cbn. intros H%rmapM_length. eauto.
Qed.

Lemma filter_boxplots dir X (l : list string) :
  filter (fun e => is_boxplot e = true) (boxplot_artifact dir X <$> l)
  = boxplot_artifact dir X <$> l.
Proof.
  induction l as [|c l IH]; [ done | ].
  rewrite fmap_cons, filter_cons_True by done. by rewrite IH.
Qed.

(** C6: in every completed run the boxplot images among the artifacts of the
    run record are, in order, one per entry of [features_to_keep], each saved
    under the name of its column; so their number is the length of that
    list. *)
Theorem one_boxplot_per_feature mt w st :
  run mt w = (st, Ok tt) ->
  exists path config section features names X record,
    model_config_files !! mt = Some (JStr path)
    /\ fs w !! path = Some (FJson config)
    /\ getitem config "feature_selection" = Ok section
    /\ getitem section "features_to_keep" = Ok (JList features)
    /\ as_str_list (JList features) = Ok names
    /\ globals st !! "X" = Some (VFrame X)
    /\ columns X = names
    /\ last (store (mlflow (world st))) = Some record
    /\ filter (fun e => is_boxplot e = true) (artifacts record)
       = boxplot_artifact boxplot_dir X <$> names
    /\ length (filter (fun e => is_boxplot e = true) (artifacts record)) = length features.
Proof.
  intros H.
  destruct (run_ok _ _ _ H)
    as (config & df & names & X & y & ts & rs & parts & hp & model & f & preds
        & mse & mae & rmse & r2 & [(st1 & Hprep & Hkeep) _ _ _ _ _ _ Hstore _ _ _ _]).
  destruct Hprep.
  destruct p_entry0 as (path & Hpath & Hfile).
  destruct p_features0 as (section & features & Hsection & Hfeatures & Hnames & _).
  destruct p_select0 as (X0 & Hselect & Himputed).
  destruct (imputation_result_columns _ _ _ _ _ Hselect Himputed) as [Hcols _].
  destruct (as_str_list_length _ _ Hnames) as (l & -> & Hlen).
  eexists path, config, section, l, names, X, _.
  do 5 (split; [ done | ]).
  split; [ rewrite Hkeep by in_list; done | ].
  split; [ done | ].
  split; [ rewrite Hstore; apply last_snoc | ].
  assert (Hfilter : filter (fun e => is_boxplot e = true)
                      (artifacts (run_record (mt +:+ " run " +:+ clock w) "No_ESG" mt config hp
                                    {| kind := kind model; hyper := hyper model; fitted := Some f |}
                                    mse mae rmse r2 X))
                    = boxplot_artifact boxplot_dir X <$> names).
  { cbn [artifacts run_record].
    rewrite filter_cons_False by (cbn; discriminate).
    rewrite filter_app, filter_boxplots, Hcols.
    rewrite filter_cons_False by (cbn; discriminate).
    by rewrite filter_nil, app_nil_r. }
  split; [ exact Hfilter | ].
  rewrite Hfilter, length_fmap. congruence.
Qed.

(** ** The split (line 55) *)


Lemma take_rows_shape idx d d' :
  take_rows idx d = Ok d' -> nrows d' = length idx /\ columns d' = columns d.
Proof.
  unfold take_rows, columns.
  destruct (rmapM _ (cols d)) as [cs|] eqn:E; simpl; [ | discriminate ].
  intros [= <-]. simpl. split; [ done | ].
  revert cs E. induction (cols d) as [|[n c] l IH]; intros cs; simpl.
  - by intros [= <-].
  - destruct (take_cells idx c); simpl; [ | discriminate ].
    destruct (rmapM _ l) as [cs'|]; simpl; [ | discriminate ].
    intros [= <-]. simpl. f_equal. by apply IH.
Qed.




Lemma split_sizes_inv n test_size n_train n_test :
  split_sizes n test_size = Ok (n_train, n_test) ->
  n_test_of n test_size = Ok n_test /\ n_train = n - n_test /\ n_test < n.
Proof.
  unfold split_sizes. destruct (n_test_of n test_size) as [k|]; simpl; [ | discriminate ].
  destruct (Nat.eqb_spec (n - k) 0); [ discriminate | ].
  intros [= <- <-]. repeat split. lia.
Qed.

Lemma train_test_split_inv X y test_size random_state e parts :
  train_test_split X y test_size random_state e = Ok parts ->
  exists n_train n_test g,
    nrows X = length y
    /\ split_sizes (nrows X) test_size = Ok (n_train, n_test)
    /\ check_random_state random_state e = Ok g
    /\ take_rows (take n_train (drop n_test (permutation g (nrows X)))) X = Ok parts.1.1.1
    /\ take_rows (take n_test (permutation g (nrows X))) X = Ok parts.1.1.2
    /\ take_cells (take n_train (drop n_test (permutation g (nrows X)))) y = Ok parts.1.2
    /\ take_cells (take n_test (permutation g (nrows X))) y = Ok parts.2.
Proof.
  unfold train_test_split.
  destruct (Nat.eqb_spec (nrows X) (length y)) as [Hlen|]; cbn [negb]; [ | discriminate ].
  destruct (split_sizes (nrows X) test_size) as [[n_train n_test]|];
    cbn [rbind fst snd]; [ | discriminate ].
  destruct (check_random_state random_state e) as [g|]; cbn [rbind]; [ | discriminate ].
  destruct (take_rows (take n_train (drop n_test (permutation g (nrows X)))) X)
    as [X_train|] eqn:E1; cbn [rbind]; [ | discriminate ].
  destruct (take_rows (take n_test (permutation g (nrows X))) X)
    as [X_test|] eqn:E2; cbn [rbind]; [ | discriminate ].
  destruct (take_cells (take n_train (drop n_test (permutation g (nrows X)))) y)
    as [y_train|] eqn:E3; cbn [rbind]; [ | discriminate ].
  destruct (take_cells (take n_test (permutation g (nrows X))) y)
    as [y_test|] eqn:E4; cbn [rbind]; [ | discriminate ].
  intros [= <-]. exists n_train, n_test, g. cbn [fst snd]. repeat split; assumption.
Qed.



(** With an integer seed the split does not look at the process-wide
    generator. *)
Lemma train_test_split_seeded X y test_size seed e1 e2 :
  train_test_split X y test_size (JInt seed) e1
  = train_test_split X y test_size (JInt seed) e2.
Proof. reflexivity. Qed.










(** ** The metrics (lines 89 to 92) *)















(** ** The concrete scenario *)


(** ** Two runs on the same inputs *)

Lemma imputation_result_functional config names X0 X X' :
  imputation_result config names X0 X ->
  imputation_result config names X0 X' ->
  X = X'.
Proof.
  intros (mvi & enabled & Hmvi & Henabled & H) (mvi' & enabled' & Hmvi' & Henabled' & H').
  rewrite Hmvi in Hmvi'. injection Hmvi' as <-.
  rewrite Henabled in Henabled'. injection Henabled' as <-.
  destruct (truthy enabled); [ | congruence ].
  destruct H as (strategy & arr & Hs & Hfit & Hframe).
  destruct H' as (strategy' & arr' & Hs' & Hfit' & Hframe').
  rewrite Hs in Hs'. injection Hs' as <-.
  rewrite Hfit in Hfit'. injection Hfit' as <-.
  congruence.
Qed.

Lemma construct_inv k hp model :
  construct k (JDict hp) = Ok model -> kind model = k /\ hyper model = hp.
Proof.
  unfold construct. cbn [as_dict rbind].
  destruct (forallb _ _); [ | discriminate ]. by intros [= <-].
Qed.

(** C4, as amended: two completed runs on the same configuration file and
    the same data file, with an integer [random_state] for the split, bind
    the same four parts, whatever else differs between the two worlds (clock,
    generator state, other files, MLflow store).  Their four metric values
    are the same when in addition the estimator draws the same randomness:
    both worlds have the same generator state, or the hyperparameters fix an
    integer [random_state]. *)
Theorem same_seed_same_partition mt w1 w2 st1 st2 seed :
  (forall path, model_config_files !! mt = Some (JStr path) ->
                fs w1 !! path = fs w2 !! path) ->
  fs w1 !! "data/processed_data/cleaned_data.csv"
  = fs w2 !! "data/processed_data/cleaned_data.csv" ->
  run mt w1 = (st1, Ok tt) ->
  run mt w2 = (st2, Ok tt) ->
  globals st1 !! "random_state" = Some (VData (JInt seed)) ->
  (forall x, x ∈ ["X_train"; "X_test"; "y_train"; "y_test"] ->
             globals st1 !! x = globals st2 !! x)
  /\ ((entropy w1 = entropy w2
        \/ exists hp s, globals st1 !! "hyperparameters" = Some (VData (JDict hp))
                        /\ hp !! "random_state" = Some (JInt s)) ->
       forall x, x ∈ ["mse"; "mae"; "rmse"; "r2"] ->
                 globals st1 !! x = globals st2 !! x).
Proof.
  intros Hconfig Hdata H1 H2 Hseed.
  destruct (run_ok _ _ _ H1)
    as (config & df & names & X & y & ts & rs & parts & hp & model & f & preds
        & mse & mae & rmse & r2
        & [(sa & Ha & Hkeep) Hfit Hpred Hmse Hmae Hrmse Hr2 _ Hmse' Hmae' Hrmse' Hr2']).
  destruct (run_ok _ _ _ H2)
    as (config2 & df2 & names2 & X2 & y2 & ts2 & rs2 & parts2 & hp2 & model2 & f2 & preds2
        & mse2 & mae2 & rmse2 & r22
        & [(sb & Hb & Hkeep2) Hfit2 Hpred2 Hmse2 Hmae2 Hrmse2 Hr22 _
             Hmse2' Hmae2' Hrmse2' Hr22']).
  destruct Ha as [(path & Hpath & Hfile) Hd (sec & feat & Hsec & Hfeat & Hnames & _)
                  (X0 & Hsel & Himp) (tgt & tname & Htgt & Htname & Hy)
                  (spl & Hspl & Hts & Hrs) Hsplit (msec & k & Hmsec & Hhp & Hk & Hcons)
                  _ _ _ _ _ _ _ _ Hrs1 HXtr HXte Hytr Hyte Hhp1 _].
  destruct Hb as [(path2 & Hpath2 & Hfile2) Hd2 (sec2 & feat2 & Hsec2 & Hfeat2 & Hnames2 & _)
                  (X02 & Hsel2 & Himp2) (tgt2 & tname2 & Htgt2 & Htname2 & Hy2)
                  (spl2 & Hspl2 & Hts2 & Hrs2) Hsplit2 (msec2 & k2 & Hmsec2 & Hhp2 & Hk2 & Hcons2)
                  _ _ _ _ _ _ _ _ _ HXtr2 HXte2 Hytr2 Hyte2 _ _].
  rewrite Hpath in Hpath2. injection Hpath2 as <-.
  rewrite (Hconfig _ Hpath), Hfile2 in Hfile. injection Hfile as <-.
  rewrite Hdata, Hd2 in Hd. injection Hd as <-.
  rewrite Hsec in Hsec2. injection Hsec2 as <-.
  rewrite Hfeat in Hfeat2. injection Hfeat2 as <-.
  rewrite Hnames in Hnames2. injection Hnames2 as <-.
  rewrite Hsel in Hsel2. injection Hsel2 as <-.
  pose proof (imputation_result_functional _ _ _ _ _ Himp Himp2) as <-.
  rewrite Htgt in Htgt2. injection Htgt2 as <-.
  rewrite Htname in Htname2. injection Htname2 as <-.
  rewrite Hy in Hy2. injection Hy2 as <-.
  rewrite Hspl in Hspl2. injection Hspl2 as <-.
  rewrite Hts in Hts2. injection Hts2 as <-.
  rewrite Hrs in Hrs2. injection Hrs2 as <-.
  rewrite Hkeep, Hrs1 in Hseed by in_list. injection Hseed as ->.
  rewrite (train_test_split_seeded _ _ _ _ _ (entropy w2)), Hsplit2 in Hsplit.
  injection Hsplit as <-.
  rewrite Hmsec in Hmsec2. injection Hmsec2 as <-.
  rewrite Hhp in Hhp2. injection Hhp2 as <-.
  rewrite Hk in Hk2. injection Hk2 as <-.
  rewrite Hcons in Hcons2. injection Hcons2 as <-.
  split.
  - intros x Hx.
    repeat (apply elem_of_cons in Hx as [->|Hx];
            [ rewrite Hkeep, Hkeep2 by in_list; congruence | ]).
    by apply elem_of_nil in Hx.
  - intros Hrng.
    assert (Hsame : estimator_rng (hyper model) (entropy w1)
                    = estimator_rng (hyper model) (entropy w2)).
    { destruct Hrng as [->|(hp' & s & Hhp' & Hs)]; [ done | ].
      rewrite Hkeep, Hhp1 in Hhp' by in_list. injection Hhp' as <-.
      apply construct_inv in Hcons as [_ ->].
      unfold estimator_rng. by rewrite Hs. }
    rewrite Hsame, Hfit2 in Hfit. injection Hfit as <-.
    rewrite Hpred in Hpred2. injection Hpred2 as <-.
    rewrite Hmse in Hmse2. injection Hmse2 as <-.
    rewrite Hmae in Hmae2. injection Hmae2 as <-.
    rewrite Hrmse in Hrmse2. injection Hrmse2 as <-.
    rewrite Hr2 in Hr22. injection Hr22 as <-.
    intros x Hx.
    repeat (apply elem_of_cons in Hx as [->|Hx]; [ congruence | ]).
    by apply elem_of_nil in Hx.
Qed.


(** ** Statements that only read, and properties that statements preserve *)

Lemma reads_var x : reads (var x).
Proof. intros st. unfold var. by destruct (globals st !! x). Qed.

Lemma reads_bind {A B} (m : M A) (k : A -> M B) :
  reads m -> (forall a, reads (k a)) -> reads (m ≫= k).
Proof.
  intros Hm Hk st. rewrite bind_run. specialize (Hm st).
  destruct (m st) as [st1 [a|e]]; cbn [fst] in *; subst; [ apply Hk | done ].
Qed.

Lemma reads_var_data x : reads (var_data x).
Proof.
  apply reads_bind; [ apply reads_var | ]. intros v st. by destruct v.
Qed.

Lemma reads_var_str x : reads (var_str x).
Proof. apply reads_bind; [ apply reads_var_data | ]. by intros j st. Qed.

Lemma reads_var_frame x : reads (var_frame x).
Proof. apply reads_bind; [ apply reads_var | ]. intros v st. by destruct v. Qed.

Lemma reads_var_series x : reads (var_series x).
Proof. apply reads_bind; [ apply reads_var | ]. intros v st. by destruct v. Qed.

Lemma reads_var_array x : reads (var_array x).
Proof. apply reads_bind; [ apply reads_var | ]. intros v st. by destruct v. Qed.

Lemma reads_var_estimator x : reads (var_estimator x).
Proof. apply reads_bind; [ apply reads_var | ]. intros v st. by destruct v. Qed.

Lemma reads_var_predictions x : reads (var_predictions x).
Proof. apply reads_bind; [ apply reads_var | ]. intros v st. by destruct v. Qed.

Lemma reads_var_float x : reads (var_float x).
Proof. apply reads_bind; [ apply reads_var | ]. intros v st. by destruct v. Qed.

Lemma var_str_ok_inv x st st' s :
  var_str x st = (st', Ok s) -> st' = st /\ globals st !! x = Some (VData (JStr s)).
Proof.
  intros H. unfold var_str, var_data in H. exec H.
  apply as_str_inv in H. subst. auto.
Qed.

Lemma var_str_run x st s :
  globals st !! x = Some (VData (JStr s)) -> var_str x st = (st, Ok s).
Proof. intros H. unfold var_str, var_data. fwd. reflexivity. Qed.

Lemma var_data_run x st j :
  globals st !! x = Some (VData j) -> var_data x st = (st, Ok j).
Proof. intros H. unfold var_data. fwd. reflexivity. Qed.

Lemma var_frame_run x st d :
  globals st !! x = Some (VFrame d) -> var_frame x st = (st, Ok d).
Proof. intros H. unfold var_frame. fwd. reflexivity. Qed.

Lemma invariant_reads P {A} (m : M A) : reads m -> invariant P m.
Proof. intros Hm st HP. by rewrite Hm. Qed.

Lemma invariant_bind P {A B} (m : M A) (k : A -> M B) :
  invariant P m -> (forall a, invariant P (k a)) -> invariant P (m ≫= k).
Proof.
  intros Hm Hk st HP. rewrite bind_run. specialize (Hm st HP).
  destruct (m st) as [st1 [a|e]]; cbn [fst] in *; [ by apply Hk | done ].
Qed.

Lemma invariant_ret P {A} (a : A) : invariant P (ret a).
Proof. by intros st. Qed.

Lemma invariant_raise P {A} e : invariant P (@raise _ A e).
Proof. by intros st. Qed.

Lemma invariant_lift P {A} (r : result A) : invariant P (lift r).
Proof. by intros st. Qed.

Lemma invariant_get_world P : invariant P get_world.
Proof. by intros st. Qed.

Lemma invariant_for_each P {A} (l : list A) body :
  (forall a, invariant P (body a)) -> invariant P (for_each l body).
Proof.
  intros Hbody. induction l as [|a l IH]; [ by intros st | ].
  cbn [for_each]. apply (invariant_bind P (body a) (fun _ => for_each l body)); auto.
Qed.

Lemma invariant_leave_run P body :
  invariant P body ->
  (forall st s, P st -> P {| globals := globals st; world := end_run s (world st) |}) ->
  invariant P (leave_run body).
Proof.
  intros Hbody Hend st HP. unfold leave_run. specialize (Hbody st HP).
  destruct (body st) as [st1 [[]|e]]; cbn [fst] in *; by apply Hend.
Qed.

(** What a sequence ends in, from a property its first part preserves. *)
Lemma outcome_bind {A B} (P : State -> Prop) (R : State * result B -> Prop)
    (m : M A) (k : A -> M B) st :
  P st ->
  invariant P m ->
  (forall st1 e, P st1 -> R (st1, Raise e)) ->
  (forall a st1, P st1 -> R (k a st1)) ->
  R ((m ≫= k) st).
Proof.
  intros HP Hm Hraise Hk. rewrite bind_run. specialize (Hm st HP).
  destruct (m st) as [st1 [a|e]]; cbn [fst] in *; auto.
Qed.

Lemma invariant_assign P x v : of_world P -> invariant P (assign x v).
Proof. intros HP [g w] H. cbn. by eapply HP. Qed.

Lemma invariant_modify_world P f :
  (forall st, P st -> P {| globals := globals st; world := f (world st) |}) ->
  invariant P (modify_world f).
Proof. intros Hf st HP. by apply Hf. Qed.

(** Going through a statement with a rule for each construct; [side] settles
    what an assignment or a change of the world has to preserve. *)
Ltac invariant_tac side :=
  repeat first
    [ apply invariant_bind; [ | intros ? ]
    | apply invariant_ret
    | apply invariant_raise
    | apply invariant_lift
    | apply invariant_get_world
    | apply invariant_reads; apply reads_var
    | apply invariant_assign; side
    | apply invariant_modify_world; side
    | apply invariant_for_each; intros ?
    | apply invariant_leave_run; [ | side ]
    | match goal with
      | |- invariant _ (match ?v with _ => _ end) => destruct v
      | |- invariant _ (if ?b then _ else _) => destruct b
      end ].

Ltac unfold_script :=
  unfold prepare, constants, line_117, lines_118_124, fit_and_evaluate, evaluate,
         log_everything;
  autounfold with py;
  unfold line_117, lines_118_124, fit_and_evaluate, evaluate, log_everything;
  autounfold with py.

(** ** The line printed at the end (line 136) *)

Ltac printed_side :=
  first
    [ intros ? ? ? H; exact H
    | intros [? ?] ? H; unfold printed, end_run in *; cbn in *;
      match goal with |- context [active_run ?m] => destruct (active_run m) end; exact H
    | intros [? ?] H; unfold printed in *; cbn in *; exact H ].



Lemma printed_line_81 out : invariant (printed out) line_81.
Proof. unfold_script. invariant_tac printed_side. Qed.


(** ** Lines 18 to 69 and the world *)

Lemma world_after_loading_steps w0 :
  invariant (fun st => world st = w0)
            (line_34;; line_38;; line_41;; line_42;; line_43;; line_46;;
             line_53;; line_54;; line_55;; line_58;; line_60).
Proof.
  unfold_script. invariant_tac ltac:(intros ? ? ? H; exact H).
Qed.

Lemma prepare_world mt w :
  world (prepare mt {| globals := ∅; world := w |}).1 = world (after_constants mt w).
Proof.
  unfold prepare. rewrite bind_run, constants_run. cbv beta iota.
  by apply (world_after_loading_steps (world (after_constants mt w))).
Qed.

(** X2: Lines 18 to 69 change nothing in the world but the tracking URI of line
    22, whether they complete or raise: no file is written, nothing is
    printed, no MLflow run is started or stored; and when they raise, that is
    how the run ends. *)
Theorem lines_18_to_69_only_set_the_tracking_uri mt w :
  world (prepare mt {| globals := ∅; world := w |}).1
  = set_mlflow (set_tracking_uri "file:///workspaces/ESG_Credit_Approval/mlflowlogs/mlruns"
                                 (mlflow w)) w
  /\ untouched w (prepare mt {| globals := ∅; world := w |}).1
  /\ forall e, (prepare mt {| globals := ∅; world := w |}).2 = Raise e ->
               run mt w = ((prepare mt {| globals := ∅; world := w |}).1, Raise e).
Proof.
  split; [ apply prepare_world | ].
  split; [ unfold untouched; rewrite prepare_world; repeat split | ].
  intros e H. unfold run, train_py. rewrite bind_run.
  destruct (prepare mt {| globals := ∅; world := w |}) as [st [[]|e']];
    cbn [fst snd] in *; [ discriminate H | congruence ].
Qed.

(** ** The [with] block (line 81) and the MLflow runs *)

Ltac in_block_side :=
  first
    [ intros ? ? ? H; exact H
    | intros [? ?] (Hs & r & Hr & Hn & He & Hst); unfold in_block in *; cbn in *;
      (split; [ exact Hs | ]);
      eexists; (split; [ first [ reflexivity | exact Hr ] | ]);
      unfold the_run; rewrite ?Hr; cbn; auto ].

Lemma in_block_body name exp runs :
  invariant (in_block name exp runs) (fit_and_evaluate;; log_everything).
Proof. unfold_script. invariant_tac in_block_side. Qed.

Lemma line_81_unnamed st st' e :
  var_str "run_name" st = (st', Raise e) -> line_81 st = (st, Raise e).
Proof.
  intros H. unfold line_81. rewrite bind_run.
  pose proof (reads_var_str "run_name" st) as Hst. rewrite H in *. cbn in Hst. by subst.
Qed.

Lemma line_81_run st name :
  globals st !! "run_name" = Some (VData (JStr name)) ->
  active_run (mlflow (world st)) = None ->
  line_81 st
  = leave_run (fit_and_evaluate;; log_everything)
      {| globals := globals st;
         world := set_mlflow (set_active_run
                                (Some (new_run name (current_experiment (mlflow (world st)))))
                                (mlflow (world st)))
                             (world st) |}.
Proof.
  intros Hname Hactive.
  unfold line_81. rewrite bind_run, (var_str_run _ _ _ Hname). cbv beta iota.
  unfold with_run. rewrite bind_run. unfold start_run.
  rewrite bind_run. unfold get_world. cbv beta iota. rewrite Hactive.
  reflexivity.
Qed.

(** Once line 81 has its run name and no run is active, one record is added
    to the store, whatever happens in the block. *)
Lemma line_81_named st name :
  globals st !! "run_name" = Some (VData (JStr name)) ->
  active_run (mlflow (world st)) = None ->
  exists r,
    store (mlflow (world (line_81 st).1)) = store (mlflow (world st)) ++ [r]
    /\ run_name r = name
    /\ experiment r = current_experiment (mlflow (world st))
    /\ status r = (if is_ok (line_81 st).2 then FINISHED else FAILED)
    /\ active_run (mlflow (world (line_81 st).1)) = None
    /\ stdout (world (line_81 st).1) = stdout (world st).
Proof.
  intros Hname Hactive.
  pose proof (printed_line_81 (stdout (world st)) st eq_refl) as Hout.
  unfold printed in Hout. revert Hout.
  rewrite (line_81_run _ _ Hname Hactive). unfold leave_run.
  match goal with
  | |- context [(fit_and_evaluate;; log_everything) ?s] =>
      assert (Hinv : in_block name (current_experiment (mlflow (world st)))
                              (store (mlflow (world st)))
                              ((fit_and_evaluate;; log_everything) s).1)
        by (apply in_block_body; split; [ reflexivity | ];
            eexists; split; [ reflexivity | done ]);
      destruct ((fit_and_evaluate;; log_everything) s) as [st2 [[]|e]]
  end.
  all: cbn [fst snd is_ok globals world] in *.
  all: destruct Hinv as (Hs & r & Hr & Hn & He & Hst).
  all: unfold end_run; rewrite Hr; cbn; intros Hout.
  all: eexists; split; [ rewrite Hs; reflexivity | ]; cbn; auto.
Qed.

(** X3: Line 81 always ends the run it starts: when the run name is bound and no
    run is active, exactly one record is added to the store, under that name
    and in the current experiment, and no run is left active; the record is
    marked FINISHED when the block completes and FAILED when it raises. *)
Theorem line_81_always_ends_its_run st name :
  globals st !! "run_name" = Some (VData (JStr name)) ->
  active_run (mlflow (world st)) = None ->
  exists r,
    store (mlflow (world (line_81 st).1)) = store (mlflow (world st)) ++ [r]
    /\ run_name r = name
    /\ experiment r = current_experiment (mlflow (world st))
    /\ ((line_81 st).2 = Ok tt -> status r = FINISHED)
    /\ (forall e, (line_81 st).2 = Raise e -> status r = FAILED)
    /\ active_run (mlflow (world (line_81 st).1)) = None.
Proof.
  intros Hname Hactive.
  destruct (line_81_named _ _ Hname Hactive) as (r & Hs & Hn & He & Hst & Ha & _).
  exists r. do 3 (split; [ assumption | ]).
  split; [ | split; [ | assumption ] ].
  - intros H. rewrite H in Hst. exact Hst.
  - intros e H. rewrite H in Hst. exact Hst.
Qed.



Ltac untouched_side :=
  first
    [ intros ? ? ? H; exact H
    | intros [? ?] H; unfold untouched in *; cbn in *; exact H ].

Lemma untouched_before_line_81 w mt :
  invariant (untouched w) (prepare mt) /\ invariant (untouched w) line_72
  /\ invariant (untouched w) line_75 /\ invariant (untouched w) line_76
  /\ invariant (untouched w) line_79.
Proof.
  split; [ | split; [ | split; [ | split ] ] ]; unfold_script; invariant_tac untouched_side.
Qed.

(** X5: Whatever the outcome of a run started with no active MLflow run, no run
    is left active, and the store has grown by at most one record: by none
    when the run raised before line 81, by one marked FAILED when it raised
    inside the [with] block, by one marked FINISHED when it completed. *)
Theorem run_adds_at_most_one_record mt w :
  active_run (mlflow w) = None ->
  active_run (mlflow (world (run mt w).1)) = None
  /\ ((exists e, (run mt w).2 = Raise e
                 /\ store (mlflow (world (run mt w).1)) = store (mlflow w))
      \/ (exists r, store (mlflow (world (run mt w).1)) = store (mlflow w) ++ [r]
                    /\ status r = (if is_ok (run mt w).2 then FINISHED else FAILED))).
Proof.
  intros Hactive.
  destruct (untouched_before_line_81 w mt) as (Hprep & H72 & H75 & H76 & H79).
  pose (R := fun out : State * result unit =>
               active_run (mlflow (world out.1)) = None
               /\ ((exists e, out.2 = Raise e
                              /\ store (mlflow (world out.1)) = store (mlflow w))
                   \/ (exists r, store (mlflow (world out.1)) = store (mlflow w) ++ [r]
                                 /\ status r = (if is_ok out.2 then FINISHED else FAILED)))).
  change (R (run mt w)). unfold run, train_py.
  assert (Hraise : forall st1 e, untouched w st1 -> R (st1, Raise e)).
  { intros st1 e (_ & _ & Hs & Ha). split; [ cbn; congruence | ]. left. eauto. }
  apply (outcome_bind (untouched w)); [ by repeat split | exact Hprep | exact Hraise | ].
  intros _ st1 H1.
  apply (outcome_bind (untouched w)); [ exact H1 | exact H72 | exact Hraise | ].
  intros _ st2 H2.
  apply (outcome_bind (untouched w)); [ exact H2 | exact H75 | exact Hraise | ].
  intros _ st3 H3.
  apply (outcome_bind (untouched w)); [ exact H3 | exact H76 | exact Hraise | ].
  intros _ st4 H4.
  apply (outcome_bind (untouched w)); [ exact H4 | exact H79 | exact Hraise | ].
  intros _ st5 H5.
  rewrite bind_run.
  destruct (var_str "run_name" st5) as [st' [name|e]] eqn:E.
  - apply var_str_ok_inv in E as [-> Hname].
    destruct H5 as (_ & _ & Hs & Ha). rewrite Hactive in Ha.
    destruct (line_81_named _ _ Hname Ha) as (r & Hs' & _ & _ & Hst & Ha' & _).
    rewrite Hs in Hs'.
    destruct (line_81 st5) as [st6 [[]|e]]; cbn [fst snd is_ok] in *.
    + split; [ exact Ha' | ]. right. exists r. auto.
    + split; [ exact Ha' | ]. right. exists r. auto.
  - rewrite (line_81_unnamed _ _ _ E). by apply Hraise.
Qed.

(** ** The files the script writes *)

Lemma starts_with_slash_app a b :
  starts_with_slash a = true -> starts_with_slash (a +:+ b) = true.
Proof. destruct a as [|c a]; [ discriminate | exact (fun H => H) ]. Qed.

(** Joining onto an absolute path gives an absolute path. *)
Lemma path_join_absolute a b :
  starts_with_slash a = true -> starts_with_slash (path_join a b) = true.
Proof.
  intros Ha. unfold path_join.
  destruct (starts_with_slash b) eqn:Eb; [ exact Eb | ].
  destruct (_ || _); by apply starts_with_slash_app.
Qed.

Lemma absolute_paths_insert g x v :
  (forall s, v = VData (JStr s) -> x ∈ path_variables -> starts_with_slash s = true) ->
  (forall path, v = VFile path -> x = "config_file" -> starts_with_slash path = true) ->
  absolute_paths g -> absolute_paths (<[x := v]> g).
Proof.
  intros Hstr Hfile [Hg1 Hg2]. split.
  - intros y s Hy. destruct (decide (x = y)) as [<-|Hxy].
    + rewrite lookup_insert_eq. intros [= ->]. by apply Hstr.
    + rewrite lookup_insert_ne by done. by apply Hg1.
  - intros path. destruct (decide (x = "config_file")) as [->|Hx].
    + rewrite lookup_insert_eq. intros [= ->]. by apply Hfile.
    + rewrite lookup_insert_ne by done. apply Hg2.
Qed.

Lemma file_kept_assign p c x v :
  (forall s, v = VData (JStr s) -> x ∈ path_variables -> starts_with_slash s = true) ->
  (forall path, v = VFile path -> x = "config_file" -> starts_with_slash path = true) ->
  invariant (file_kept p c) (assign x v).
Proof.
  intros Hstr Hfile st [Hf Ha]. split; [ exact Hf | ].
  by apply absolute_paths_insert.
Qed.

Lemma file_kept_modify_world p c f :
  (forall w, fs (f w) = fs w) -> invariant (file_kept p c) (modify_world f).
Proof. intros Hf st [H Ha]. split; [ cbn; by rewrite Hf | exact Ha ]. Qed.

Lemma file_kept_write p c path content :
  starts_with_slash p = false -> starts_with_slash path = true ->
  invariant (file_kept p c) (write_file path content).
Proof.
  intros Hp Hpath st [Hf Ha]. unfold write_file. rewrite bind_run.
  unfold get_world. cbv beta iota.
  destruct (writable (world st) path); [ | by split ].
  split; [ | exact Ha ]. cbn.
  rewrite lookup_insert_ne; [ exact Hf | ]. intros ->. congruence.
Qed.

Lemma file_kept_read_str p c x {A} (k : string -> M A) :
  x ∈ path_variables ->
  (forall s, starts_with_slash s = true -> invariant (file_kept p c) (k s)) ->
  invariant (file_kept p c) (var_str x ≫= k).
Proof.
  intros Hx Hk st HP. rewrite bind_run.
  destruct (var_str x st) as [st' [s|e]] eqn:E.
  - apply var_str_ok_inv in E as [-> Hs]. apply Hk; [ | exact HP ].
    destruct HP as [_ [Ha _]]. by eapply Ha.
  - pose proof (reads_var_str x st) as Hst. rewrite E in Hst. cbn in *. by subst.
Qed.

Lemma file_kept_read_file p c {A} (k : Value -> M A) :
  (forall v, (forall path, v = VFile path -> starts_with_slash path = true) ->
             invariant (file_kept p c) (k v)) ->
  invariant (file_kept p c) (var "config_file" ≫= k).
Proof.
  intros Hk st HP. rewrite bind_run. unfold var.
  destruct (globals st !! "config_file") as [v|] eqn:E; [ | exact HP ].
  apply Hk; [ | exact HP ]. intros path ->. destruct HP as [_ [_ Ha]]. by apply Ha.
Qed.

Lemma file_kept_end_run p c st s :
  file_kept p c st ->
  file_kept p c {| globals := globals st; world := end_run s (world st) |}.
Proof.
  intros [Hf Ha]. split; [ | exact Ha ]. cbn. unfold end_run.
  by destruct (active_run (mlflow (world st))).
Qed.

Ltac not_a_path_variable Hx :=
  unfold path_variables in Hx;
  repeat (apply elem_of_cons in Hx as [Hx|Hx]; [ discriminate Hx | ]);
  apply elem_of_nil in Hx; exact Hx.

Ltac is_a_path_variable :=
  unfold path_variables;
  solve [ repeat (apply elem_of_cons; first [ left; reflexivity | right ]) ].

Ltac unfold_lines :=
  unfold prepare, constants, fit_and_evaluate, evaluate, log_everything,
         line_117, lines_118_124;
  unfold line_18, line_20, line_22, line_25, line_32, line_34, line_38, line_41, line_42,
         line_43, line_46, line_47, line_48, line_49, line_50, line_53, line_54, line_55,
         line_58, line_60, line_72, line_75, line_76, line_79, line_81, line_83, line_86,
         line_89, line_90, line_91, line_92, line_95, line_96, line_97, line_98, line_99,
         line_100, line_103, line_106, line_107, line_108, line_111, line_112, line_114,
         line_127, lines_128_134, line_136, build;
  unfold line_47, line_48, line_49, line_50;
  unfold with_run, start_run, log_param, log_params, log_metric, log_model, log_artifact,
         plt_figure, plt_draw, plt_title, plt_savefig, plt_close.

Ltac file_kept_tac :=
  repeat first
    [ apply file_kept_read_str; [ is_a_path_variable | intros ? ? ]
    | apply file_kept_read_file; intros ? ?
    | apply file_kept_write;
      [ assumption
      | first [ assumption
              | match goal with
                | H : forall path, VFile _ = VFile path -> _ |- _ => apply H; reflexivity
                end ] ]
    | apply invariant_bind; [ | intros ? ]
    | apply invariant_ret
    | apply invariant_raise
    | apply invariant_lift
    | apply invariant_get_world
    | apply invariant_reads;
      first [ apply reads_var_str | apply reads_var_data | apply reads_var_frame
            | apply reads_var_series | apply reads_var_array | apply reads_var_estimator
            | apply reads_var_predictions | apply reads_var_float | apply reads_var ]
    | apply file_kept_assign;
      [ let Hv := fresh "Hv" in
        let Hx := fresh "Hx" in
        intros ? Hv Hx;
        first [ discriminate Hv
              | exfalso; not_a_path_variable Hx
              | injection Hv as <-;
                first [ assumption | apply path_join_absolute; assumption | reflexivity ] ]
      | let Hv := fresh "Hv" in
        let Hx := fresh "Hx" in
        intros ? Hv Hx;
        first [ discriminate Hv | discriminate Hx | injection Hv as <-; assumption ] ]
    | apply file_kept_modify_world; intros ?; reflexivity
    | apply invariant_for_each; intros ?
    | apply invariant_leave_run; [ | intros ? ?; apply file_kept_end_run ]
    | match goal with
      | |- invariant _ (match ?v with _ => _ end) => destruct v
      | |- invariant _ (if ?b then _ else _) => destruct b
      end ].

Lemma file_kept_train_py p c mt :
  starts_with_slash p = false -> invariant (file_kept p c) (train_py mt).
Proof.
  intros Hp. unfold train_py. unfold_lines. file_kept_tac.
Qed.

Lemma config_files_are_relative mt path :
  model_config_files !! mt = Some (JStr path) -> starts_with_slash path = false.
Proof.
  unfold model_config_files.
  rewrite !lookup_insert_Some, lookup_singleton_Some.
  intros [[_ [= <-]]|[_ [[_ [= <-]]|[_ [_ [= <-]]]]]]; reflexivity.
Qed.

(** X6: The script writes to absolute paths only: whatever the outcome of a run,
    every file under a relative path is afterwards what it was before.  In
    particular the run leaves its own inputs alone, the configuration file of
    the model type and the data file. *)
Theorem relative_paths_are_never_written mt w :
  (forall p, starts_with_slash p = false -> fs (world (run mt w).1) !! p = fs w !! p)
  /\ (forall path, model_config_files !! mt = Some (JStr path) ->
                   fs (world (run mt w).1) !! path = fs w !! path)
  /\ fs (world (run mt w).1) !! "data/processed_data/cleaned_data.csv"
     = fs w !! "data/processed_data/cleaned_data.csv".
Proof.
  assert (H : forall p, starts_with_slash p = false ->
                        fs (world (run mt w).1) !! p = fs w !! p).
  { intros p Hp.
    destruct (file_kept_train_py p (fs w !! p) mt Hp {| globals := ∅; world := w |})
      as [Hfile _]; [ | exact Hfile ].
    split; [ reflexivity | ].
    split; cbn [globals]; intros *; rewrite lookup_empty; discriminate. }
  split; [ exact H | ]. split; [ | by apply H ].
  intros path Hpath. apply H. by eapply config_files_are_relative.
Qed.

(** ** Runs that stop while loading and selecting (lines 34 to 43) *)

Ltac unfold_states :=
  unfold after_selection, after_features, after_loads, after_config, after_constants.

Lemma line_34_run mt path config w :
  model_config_files !! mt = Some (JStr path) ->
  fs w !! path = Some (FJson config) ->
  line_34 (after_constants mt w) = (after_config mt path config w, Ok tt).
Proof.
  intros Hentry Hfile. unfold line_34. unfold_states. autounfold with py. fwd.
  cbn [as_str]. fwd. cbn [getitem]. rewrite Hentry. fwd. cbn [as_str]. fwd.
  norm_world_goal. rewrite Hfile. fwd. reflexivity.
Qed.

Lemma line_34_missing mt path w :
  model_config_files !! mt = Some (JStr path) ->
  fs w !! path = None ->
  line_34 (after_constants mt w) = (after_constants mt w, Raise (FileNotFoundError path)).
Proof.
  intros Hentry Hfile. unfold line_34. unfold_states. autounfold with py. fwd.
  cbn [as_str]. fwd. cbn [getitem]. rewrite Hentry. fwd. cbn [as_str]. fwd.
  norm_world_goal. rewrite Hfile. fwd. reflexivity.
Qed.

Lemma line_38_run mt path config df w :
  fs w !! "data/processed_data/cleaned_data.csv" = Some (FCsv df) ->
  line_38 (after_config mt path config w) = (after_loads mt path config df w, Ok tt).
Proof.
  intros Hfile. unfold line_38. unfold_states. fwd.
  norm_world_goal. rewrite Hfile. fwd. reflexivity.
Qed.

Lemma line_38_missing mt path config w :
  fs w !! "data/processed_data/cleaned_data.csv" = None ->
  line_38 (after_config mt path config w)
  = (after_config mt path config w,
     Raise (FileNotFoundError "data/processed_data/cleaned_data.csv")).
Proof.
  intros Hfile. unfold line_38. unfold_states. fwd.
  norm_world_goal. rewrite Hfile. fwd. reflexivity.
Qed.

(** Lines 18 to 38 on a world that holds both input files. *)
Lemma run_after_loads mt path config df w :
  model_config_files !! mt = Some (JStr path) ->
  fs w !! path = Some (FJson config) ->
  fs w !! "data/processed_data/cleaned_data.csv" = Some (FCsv df) ->
  run mt w = after_loading (after_loads mt path config df w).
Proof.
  intros Hentry Hconfig Hdata. unfold run. rewrite train_py_after_loading.
  rewrite bind_run, constants_run. cbv beta iota.
  rewrite bind_run, (line_34_run _ _ _ _ Hentry Hconfig). cbv beta iota.
  rewrite bind_run, (line_38_run _ _ _ _ _ Hdata). reflexivity.
Qed.

Lemma line_41_run mt path config df w section features :
  getitem config "feature_selection" = Ok section ->
  getitem section "features_to_keep" = Ok features ->
  line_41 (after_loads mt path config df w)
  = (after_features mt path config df features w, Ok tt).
Proof.
  intros Hsection Hfeatures. unfold line_41. unfold_states. autounfold with py. fwd.
  rewrite Hsection. fwd. rewrite Hfeatures. fwd. reflexivity.
Qed.

Lemma line_41_raises mt path config df w e :
  (getitem config "feature_selection" = Raise e
   \/ exists section, getitem config "feature_selection" = Ok section
                      /\ getitem section "features_to_keep" = Raise e) ->
  line_41 (after_loads mt path config df w) = (after_loads mt path config df w, Raise e).
Proof.
  intros H. unfold line_41. unfold_states. autounfold with py. fwd.
  destruct H as [H|(section & Hsection & H)].
  - rewrite H. fwd. reflexivity.
  - rewrite Hsection. fwd. rewrite H. fwd. reflexivity.
Qed.

Lemma line_42_run mt path config df w features names :
  as_str_list features = Ok names ->
  line_42 (after_features mt path config df features w)
  = match getitem_cols df names with
    | Ok X => (after_selection mt path config df features X w, Ok tt)
    | Raise e => (after_features mt path config df features w, Raise e)
    end.
Proof.
  intros Hnames. unfold line_42. unfold_states. autounfold with py. fwd.
  rewrite Hnames. fwd. destruct (getitem_cols df names); fwd; reflexivity.
Qed.

Lemma line_43_raises mt path config df w features X target name e :
  getitem config "target_variable" = Ok target ->
  as_str target = Ok name ->
  getitem_col df name = Raise e ->
  line_43 (after_selection mt path config df features X w)
  = (after_selection mt path config df features X w, Raise e).
Proof.
  intros Htarget Hname Hcol. unfold line_43. unfold_states. autounfold with py. fwd.
  rewrite Htarget. fwd. rewrite Hname. fwd. rewrite Hcol. fwd. reflexivity.
Qed.

Lemma find_col_None name cs : find_col name cs = None <-> name ∉ cs.*1.
Proof.
  induction cs as [|[n c] cs IH]; simpl.
  - split; [ intros _; apply not_elem_of_nil | done ].
  - rewrite not_elem_of_cons. destruct (String.eqb_spec n name) as [->|Hn].
    + split; [ discriminate | intros [? _]; done ].
    + rewrite IH. split; [ intros ?; split; [ congruence | done ] | intros [_ ?]; done ].
Qed.

Lemma getitem_cols_missing d names :
  (exists n, n ∈ names /\ n ∉ columns d) ->
  exists missing, getitem_cols d names = Raise (KeyError missing)
                  /\ missing ∈ names /\ missing ∉ columns d.
Proof.
  unfold getitem_cols, columns.
  induction names as [|n names IH]; intros (m & Hm & Hmissing).
  - by apply elem_of_nil in Hm.
  - cbn [rmapM]. unfold getitem_col at 1.
    destruct (find_col n (cols d)) as [c|] eqn:E.
    + cbn [rbind]. apply elem_of_cons in Hm as [->|Hm].
      { apply find_col_None in Hmissing. congruence. }
      destruct IH as (missing & H & Hin & Hnot); [ eauto | ].
      exists missing. split; [ | split; [ apply elem_of_cons; by right | done ] ].
      destruct (rmapM _ names); cbn [rbind] in *; [ discriminate H | exact H ].
    + exists n. split; [ reflexivity | ].
      split; [ apply elem_of_cons; by left | by apply find_col_None ].
Qed.

(** X7: A model type whose configuration file is not on disk stops the run at
    line 34 with [FileNotFoundError]; only the constants of lines 18 to 32
    have been bound. *)
Theorem missing_config_file_raises_FileNotFoundError mt path w :
  model_config_files !! mt = Some (JStr path) ->
  fs w !! path = None ->
  run mt w = (after_constants mt w, Raise (FileNotFoundError path)).
Proof.
  intros Hentry Hfile. unfold run, train_py, prepare.
  rewrite 2!bind_run, constants_run. cbv beta iota.
  rewrite bind_run, (line_34_missing _ _ _ Hentry Hfile). reflexivity.
Qed.

(** X8: With the configuration loaded but no data file on disk, the run stops at
    line 38 with [FileNotFoundError]; [config] is bound, [df] is not. *)
Theorem missing_data_file_raises_FileNotFoundError mt path config w :
  model_config_files !! mt = Some (JStr path) ->
  fs w !! path = Some (FJson config) ->
  fs w !! "data/processed_data/cleaned_data.csv" = None ->
  run mt w = (after_config mt path config w,
              Raise (FileNotFoundError "data/processed_data/cleaned_data.csv"))
  /\ globals (run mt w).1 !! "config" = Some (VData config)
  /\ globals (run mt w).1 !! "df" = None.
Proof.
  intros Hentry Hconfig Hdata.
  assert (E : run mt w = (after_config mt path config w,
                          Raise (FileNotFoundError "data/processed_data/cleaned_data.csv"))).
  { unfold run, train_py, prepare.
    rewrite 2!bind_run, constants_run. cbv beta iota.
    rewrite bind_run, (line_34_run _ _ _ _ Hentry Hconfig). cbv beta iota.
    rewrite bind_run, (line_38_missing _ _ _ _ Hdata). reflexivity. }
  rewrite E. repeat split.
Qed.

(** X9: A configuration without the key "feature_selection", or whose
    "feature_selection" section has no key "features_to_keep", stops the run
    at line 41 with [KeyError] for that key, after both files have been
    loaded. *)
Theorem missing_feature_keys_raise_KeyError mt path d df w :
  model_config_files !! mt = Some (JStr path) ->
  fs w !! path = Some (FJson (JDict d)) ->
  fs w !! "data/processed_data/cleaned_data.csv" = Some (FCsv df) ->
  (d !! "feature_selection" = None ->
   run mt w = (after_loads mt path (JDict d) df w, Raise (KeyError "feature_selection")))
  /\ (forall section,
        d !! "feature_selection" = Some (JDict section) ->
        section !! "features_to_keep" = None ->
        run mt w = (after_loads mt path (JDict d) df w, Raise (KeyError "features_to_keep"))).
Proof.
  intros Hentry Hconfig Hdata.
  rewrite (run_after_loads _ _ _ _ _ Hentry Hconfig Hdata). unfold after_loading.
  split.
  - intros H. rewrite bind_run, (line_41_raises _ _ _ _ _ (KeyError "feature_selection"));
      [ reflexivity | ].
    left. cbn. by rewrite H.
  - intros section Hsection H.
    rewrite bind_run, (line_41_raises _ _ _ _ _ (KeyError "features_to_keep"));
      [ reflexivity | ].
    right. exists (JDict section). cbn. by rewrite Hsection, H.
Qed.

(** X10: A feature listed in [features_to_keep] that is not a column of the table
    stops the run at line 42 with [KeyError] for a listed name that the table
    does not have; [X] is not bound. *)
Theorem unknown_feature_raises_KeyError mt path config df w section features names :
  model_config_files !! mt = Some (JStr path) ->
  fs w !! path = Some (FJson config) ->
  fs w !! "data/processed_data/cleaned_data.csv" = Some (FCsv df) ->
  getitem config "feature_selection" = Ok section ->
  getitem section "features_to_keep" = Ok features ->
  as_str_list features = Ok names ->
  (exists name, name ∈ names /\ name ∉ columns df) ->
  exists missing,
    run mt w = (after_features mt path config df features w, Raise (KeyError missing))
    /\ missing ∈ names /\ (missing ∉ columns df)
    /\ globals (after_features mt path config df features w) !! "X" = None.
Proof.
  intros Hentry Hconfig Hdata Hsection Hfeatures Hnames Hmissing.
  destruct (getitem_cols_missing df names Hmissing) as (missing & Hcols & Hin & Hnot).
  exists missing. split; [ | by repeat split ].
  rewrite (run_after_loads _ _ _ _ _ Hentry Hconfig Hdata). unfold after_loading.
  rewrite bind_run, (line_41_run _ _ _ _ _ _ _ Hsection Hfeatures). cbv beta iota.
  rewrite bind_run, (line_42_run _ _ _ _ _ _ _ Hnames), Hcols. reflexivity.
Qed.

(** X11: A target variable that is not a column of the table stops the run at line
    43 with [KeyError] for its name, after the features have been selected. *)
Theorem unknown_target_raises_KeyError mt path config df w section features names X target :
  model_config_files !! mt = Some (JStr path) ->
  fs w !! path = Some (FJson config) ->
  fs w !! "data/processed_data/cleaned_data.csv" = Some (FCsv df) ->
  getitem config "feature_selection" = Ok section ->
  getitem section "features_to_keep" = Ok features ->
  as_str_list features = Ok names ->
  getitem_cols df names = Ok X ->
  getitem config "target_variable" = Ok (JStr target) ->
  target ∉ columns df ->
  run mt w = (after_selection mt path config df features X w, Raise (KeyError target)).
Proof.
  intros Hentry Hconfig Hdata Hsection Hfeatures Hnames Hcols Htarget Hmissing.
  rewrite (run_after_loads _ _ _ _ _ Hentry Hconfig Hdata). unfold after_loading.
  rewrite bind_run, (line_41_run _ _ _ _ _ _ _ Hsection Hfeatures). cbv beta iota.
  rewrite bind_run, (line_42_run _ _ _ _ _ _ _ Hnames), Hcols. cbv beta iota.
  rewrite bind_run, (line_43_raises _ _ _ _ _ _ _ (JStr target) target (KeyError target));
    [ reflexivity | exact Htarget | reflexivity | ].
  unfold getitem_col. apply find_col_None in Hmissing. by rewrite Hmissing.
Qed.

(** ** The imputation switch and what imputation does to the cells *)

(** X12: Line 46 looks at the truth value of "enabled" only: when it is false the
    statement changes nothing, and "strategy" is not even read; when it is
    true and the section has no "strategy", line 47 raises [KeyError]. *)
Theorem imputation_switch st config mvi enabled :
  globals st !! "config" = Some (VData config) ->
  getitem config "missing_value_imputation" = Ok mvi ->
  getitem mvi "enabled" = Ok enabled ->
  (truthy enabled = false -> line_46 st = (st, Ok tt))
  /\ (truthy enabled = true ->
      forall d, mvi = JDict d -> d !! "strategy" = None ->
                line_46 st = (st, Raise (KeyError "strategy"))).
Proof.
  intros Hconfig Hmvi Henabled. split.
  - intros Htruthy. unfold line_46. autounfold with py. fwd.
    rewrite Hmvi. fwd. rewrite Henabled. fwd. rewrite Htruthy. fwd. by destruct st.
  - intros Htruthy d -> Hd. unfold line_46. autounfold with py. fwd.
    rewrite Hmvi. fwd. rewrite Henabled. fwd. rewrite Htruthy. fwd.
    rewrite Hmvi. fwd. cbn [getitem]. rewrite Hd. fwd. reflexivity.
Qed.

Lemma fill_complete v c : Forall is_Some (fill v c).
Proof.
  unfold fill. apply Forall_fmap, Forall_forall. intros [q|] _; cbn; eauto.
Qed.

Lemma fill_keeps v c :
  Forall2 (fun x x' : Cell => forall q, x = Some q -> x' = Some q) c (fill v c).
Proof.
  unfold fill. induction c as [|[q|] c IH]; constructor; try done.
Qed.

Lemma imputed_frame_content strategy X arr X' :
  fit_transform strategy X = Ok arr ->
  DataFrame_of_array arr (columns X) = Ok X' ->
  complete_frame X' /\ keeps_observed X X'.
Proof.
  intros (s & _ & _ & Hrows & Hcols)%fit_transform_ok
         (Hlen & Hn & Hnames & Hdata)%DataFrame_of_array_ok.
  unfold columns in Hlen. rewrite length_fmap, Hcols in Hlen.
  apply omap_full in Hlen. rewrite <- Hcols, <- Hdata in Hlen.
  unfold complete_frame, keeps_observed.
  revert Hlen. generalize ((cols X').*2). generalize (cols X). clear.
  induction l as [|nc l IH]; intros l' H; inversion H as [|? c' ? l'' Hc Hl]; subst.
  - split; constructor.
  - destruct (IH _ Hl) as [IH1 IH2].
    unfold impute_column in Hc. destruct (statistic s nc.2) as [v|]; [ | discriminate ].
    injection Hc as <-. split.
    + constructor; [ apply fill_complete | exact IH1 ].
    + rewrite fmap_cons. constructor; [ apply fill_keeps | exact IH2 ].
Qed.

(** X13: With imputation enabled, whenever lines 46 to 50 complete, the frame
    bound to [X] has no missing cell, and every value the selected frame held
    is still there, in the same column and row. *)
Theorem imputation_fills_every_gap st config mvi enabled features names X :
  globals st !! "config" = Some (VData config) ->
  getitem config "missing_value_imputation" = Ok mvi ->
  getitem mvi "enabled" = Ok enabled ->
  truthy enabled = true ->
  globals st !! "features" = Some (VData features) ->
  as_str_list features = Ok names ->
  globals st !! "X" = Some (VFrame X) ->
  columns X = names ->
  forall st', line_46 st = (st', Ok tt) ->
    exists X', globals st' !! "X" = Some (VFrame X')
               /\ complete_frame X' /\ keeps_observed X X'.
Proof.
  intros Hconfig Hmvi Henabled Htruthy Hfeatures Hnames HX Hcols st' H.
  autounfold with py in H. exec H.
  eexists. split; [ lookup_goal; reflexivity | ].
  eapply imputed_frame_content; [ eassumption | ]. congruence.
Qed.

(** ** What a completed run has logged *)







(** ** The split is a partition (line 55) *)

Lemma take_cells_fmap idx (c c' : list Cell) :
  take_cells idx c = Ok c' -> c' = (fun i => match c !! i with Some x => x | None => None end) <$> idx.
Proof.
  unfold take_cells. revert c'. induction idx as [|i idx IH]; intros c'; cbn [rmapM].
  - by intros [= <-].
  - destruct (c !! i) as [x|] eqn:E; cbn [rbind]; [ | discriminate ].
    destruct (rmapM _ idx) as [xs|]; cbn [rbind]; [ | discriminate ].
    intros [= <-]. rewrite fmap_cons. cbv beta. unfold Cell in *. rewrite E.
    by rewrite (IH xs eq_refl).
Qed.

Lemma fmap_lookup_seq (c : list Cell) :
  (fun i => match c !! i with Some x => x | None => None end) <$> seq 0 (length c) = c.
Proof.
  induction c as [|x c IH]; [ done | ].
  cbn [length seq]. rewrite fmap_cons, <- fmap_S_seq, <- list_fmap_compose.
  cbn. f_equal. exact IH.
Qed.

(** Taking the cells at a permutation of all positions gives a permutation of
    the cells. *)
Lemma take_cells_Permutation idx (c c' : list Cell) :
  idx ≡ₚ seq 0 (length c) -> take_cells idx c = Ok c' -> c' ≡ₚ c.
Proof.
  intros Hidx ->%take_cells_fmap. rewrite Hidx. by rewrite fmap_lookup_seq.
Qed.

Lemma take_cells_app idx1 idx2 (c c1 c2 : list Cell) :
  take_cells idx1 c = Ok c1 -> take_cells idx2 c = Ok c2 ->
  take_cells (idx1 ++ idx2) c = Ok (c1 ++ c2).
Proof.
  unfold take_cells. revert c1. induction idx1 as [|i idx1 IH]; intros c1; cbn [rmapM app].
  - by intros [= <-].
  - destruct (c !! i) as [x|]; cbn [rbind]; [ | discriminate ].
    destruct (rmapM _ idx1) as [xs|] eqn:E; cbn [rbind]; [ | discriminate ].
    intros [= <-] H2. by rewrite (IH xs eq_refl H2).
Qed.

(** The two index lists of the split are the permutation cut in two. *)
Lemma split_indices (p : list nat) n n_test :
  length p = n -> n_test < n ->
  take n_test p ++ take (n - n_test) (drop n_test p) = p.
Proof.
  intros Hp Hn. rewrite (take_ge (drop n_test p)) by (rewrite length_drop; lia).
  apply take_drop.
Qed.

(** X18: Line 55 partitions the rows: when it completes, the four parts are the
    rows of [X] and [y] at two index lists that together are a permutation of
    all row positions, the same two lists for features and targets; so the
    row counts of the two parts add up to the row count of [X], and the test
    targets followed by the train targets are a permutation of [y].  The
    library's permutation of [n] positions is assumed to be one. *)
Theorem split_is_a_partition st st' X y :
  (forall g n, permutation g n ≡ₚ seq 0 n) ->
  globals st !! "X" = Some (VFrame X) ->
  globals st !! "y" = Some (VSeries y) ->
  line_55 st = (st', Ok tt) ->
  exists X_train X_test y_train y_test ind_train ind_test,
    globals st' !! "X_train" = Some (VFrame X_train)
    /\ globals st' !! "X_test" = Some (VFrame X_test)
    /\ globals st' !! "y_train" = Some (VSeries y_train)
    /\ globals st' !! "y_test" = Some (VSeries y_test)
    /\ ind_test ++ ind_train ≡ₚ seq 0 (nrows X)
    /\ take_rows ind_train X = Ok X_train
    /\ take_rows ind_test X = Ok X_test
    /\ take_cells ind_train y = Ok y_train
    /\ take_cells ind_test y = Ok y_test
    /\ nrows X_train + nrows X_test = nrows X
    /\ 0 < nrows X_train
    /\ y_test ++ y_train ≡ₚ y.
Proof.
  intros Hperm HX Hy H. unfold line_55 in H. autounfold with py in H. exec H.
  match goal with
  | E : train_test_split _ _ _ _ _ = Ok ?parts |- _ =>
      apply train_test_split_inv in E
        as (n_train & n_test & g & Hlen & Hsizes & _ & H1 & H2 & H3 & H4);
      exists parts.1.1.1, parts.1.1.2, parts.1.2, parts.2
  end.
  apply split_sizes_inv in Hsizes as (_ & -> & Hn).
  exists (take (nrows X - n_test) (drop n_test (permutation g (nrows X)))),
         (take n_test (permutation g (nrows X))).
  assert (Hp : length (permutation g (nrows X)) = nrows X)
    by (rewrite Hperm; apply length_seq).
  do 4 (split; [ lookup_goal; reflexivity | ]).
  split; [ by rewrite (split_indices _ (nrows X)) | ].
  do 4 (split; [ assumption | ]).
  pose proof (take_rows_shape _ _ _ H1) as [Hrows1 _].
  pose proof (take_rows_shape _ _ _ H2) as [Hrows2 _].
  rewrite Hrows1, Hrows2, !length_take, length_drop, Hp.
  split; [ lia | ]. split; [ lia | ].
  eapply take_cells_Permutation; [ | by apply take_cells_app ].
  rewrite (split_indices _ (nrows X)) by done. by rewrite <- Hlen.
Qed.

(** ** Run names (line 79) *)

(** X19: The run name is the model type and the formatted clock, nothing else: two
    completed runs of the same model type have the same run name exactly when
    they read the same clock string, so runs started within one second of
    each other share their name. *)
Theorem run_names_differ_only_by_the_clock mt w1 w2 st1 st2 :
  run mt w1 = (st1, Ok tt) ->
  run mt w2 = (st2, Ok tt) ->
  exists r1 r2,
    last (store (mlflow (world st1))) = Some r1
    /\ last (store (mlflow (world st2))) = Some r2
    /\ run_name r1 = mt +:+ " run " +:+ clock w1
    /\ (run_name r1 = run_name r2 <-> clock w1 = clock w2).
Proof.
  intros H1 H2.
  destruct (run_ok _ _ _ H1)
    as (config & df & names & X & y & ts & rs & parts & hp & model & f & preds
        & mse & mae & rmse & r2 & [_ _ _ _ _ _ _ Hstore1 _ _ _ _]).
  destruct (run_ok _ _ _ H2)
    as (config' & df' & names' & X' & y' & ts' & rs' & parts' & hp' & model' & f' & preds'
        & mse' & mae' & rmse' & r2' & [_ _ _ _ _ _ _ Hstore2 _ _ _ _]).
  eexists _, _.
  split; [ rewrite Hstore1; apply last_snoc | ].
  split; [ rewrite Hstore2; apply last_snoc | ].
  split; [ reflexivity | ].
  cbn [run_name run_record]. split.
  - intros E. by do 2 apply String.app_inj in E.
  - by intros ->.
Qed.

(** ** Ranges of the metrics (lines 89 to 92) *)






(** ** Where the boxplots go (line 121) *)

Lemma starts_with_slash_suffix c s :
  starts_with_slash s = false -> starts_with_slash (c +:+ s) = starts_with_slash c.
Proof. destruct c as [|a c]; [ exact (fun H => H) | reflexivity ]. Qed.

Lemma list_ascii_of_string_app a b :
  list_ascii_of_string (a +:+ b) = list_ascii_of_string a ++ list_ascii_of_string b.
Proof.
  induction a as [|c a IH]; [ reflexivity | ].
  change (String c a +:+ b) with (String c (a +:+ b)). cbn. by rewrite IH.
Qed.

Lemma string_app_inj_r a b s : a +:+ s = b +:+ s -> a = b.
Proof.
  intros H. apply (f_equal list_ascii_of_string) in H.
  rewrite !list_ascii_of_string_app in H. apply app_inv_tail in H.
  rewrite <- (string_of_list_ascii_of_string a), <- (string_of_list_ascii_of_string b).
  by rewrite H.
Qed.

(** X21: The boxplot of a column goes to [<dir>/<column>_boxplot.png] under a
    directory [dir] that is not empty and does not end in a slash, such as
    the script's boxplot directory, unless the column name starts with a
    slash: then the directory is dropped and the file goes to
    [<column>_boxplot.png] at the root.  Columns whose names do not start
    with a slash get different files. *)
Theorem boxplot_paths dir :
  dir <> "" -> ends_with_slash dir = false ->
  (forall column, starts_with_slash column = false ->
                  boxplot_path dir column = dir +:+ "/" +:+ column +:+ "_boxplot.png")
  /\ (forall column, starts_with_slash column = true ->
                     boxplot_path dir column = column +:+ "_boxplot.png")
  /\ (forall c1 c2, starts_with_slash c1 = false -> starts_with_slash c2 = false ->
                    boxplot_path dir c1 = boxplot_path dir c2 -> c1 = c2)
  /\ boxplot_dir = "/workspaces/ESG_Credit_Approval/mlflowlogs/artifacts/EDA/boxplots".
Proof.
  intros Hdir Hend.
  assert (Hrel : forall column, starts_with_slash column = false ->
            boxplot_path dir column = dir +:+ "/" +:+ column +:+ "_boxplot.png").
  { intros column Hc. unfold boxplot_path, path_join.
    rewrite starts_with_slash_suffix, Hc by reflexivity.
    destruct (String.eqb_spec dir "") as [->|_]; [ done | ].
    by rewrite Hend. }
  split; [ exact Hrel | ]. split; [ | split; [ | reflexivity ] ].
  - intros column Hc. unfold boxplot_path, path_join.
    by rewrite starts_with_slash_suffix, Hc by reflexivity.
  - intros c1 c2 H1 H2. rewrite !Hrel by assumption. intros E.
    do 2 apply String.app_inj in E. by apply string_app_inj_r in E.
Qed.

End Properties.

(** * Concrete runs *)



Lemma demo_run_completes :
  run "RandomForestRegressor" demo_world
  = ((run "RandomForestRegressor" demo_world).1, Ok tt).
Proof.
  assert (H : (run "RandomForestRegressor" demo_world).2 = Ok tt)
    by (vm_compute; reflexivity).
  destruct (run "RandomForestRegressor" demo_world) as [st r].
  cbn [fst snd] in *. by subst.
Defined.

Lemma demo_permutation g n : @permutation demo_sklearn g n ≡ₚ seq 0 n.
Proof. cbn. symmetry. apply Permutation_rev. Qed.



Lemma one_boxplot_per_feature_witness :
  exists record,
    last (store (mlflow (world (run "RandomForestRegressor" demo_world).1))) = Some record
    /\ length (filter (fun e => is_boxplot e = true) (artifacts record)) = 2.
Proof.
  destruct (@one_boxplot_per_feature demo_sklearn "RandomForestRegressor" demo_world
              (run "RandomForestRegressor" demo_world).1 demo_run_completes)
    as (path & config & section & features & names & X & r
        & Hpath & Hfile & Hsection & Hfeatures & _ & _ & _ & Hlast & _ & Hlen).
  vm_compute in Hpath. injection Hpath as <-.
  vm_compute in Hfile. injection Hfile as <-.
  vm_compute in Hsection. injection Hsection as <-.
  vm_compute in Hfeatures. injection Hfeatures as <-.
  exists r. split; [ exact Hlast | exact Hlen ].
Defined.

Lemma config_and_dataset_never_mutated_witness :
  exists record,
    globals (run "RandomForestRegressor" demo_world).1 !! "config" = Some (VData nested_config)
    /\ globals (run "RandomForestRegressor" demo_world).1 !! "df" = Some (VFrame ten_rows)
    /\ last (store (mlflow (world (run "RandomForestRegressor" demo_world).1))) = Some record
    /\ (config_path "RandomForestRegressor", FJson nested_config) ∈ artifacts record.
Proof.
  destruct (@config_and_dataset_never_mutated demo_sklearn) as (_ & _ & _ & _ & H).
  destruct (H "RandomForestRegressor" demo_world
              (run "RandomForestRegressor" demo_world).1 demo_run_completes)
    as (path & config & df & r & Hpath & Hfile & Hdata & Hconfig & Hdf & Hlast & Hin).
  vm_compute in Hpath. injection Hpath as <-.
  vm_compute in Hfile. injection Hfile as <-.
  vm_compute in Hdata. injection Hdata as <-.
  exists r. auto.
Defined.

Lemma run_completes (w : @World demo_sklearn) :
  (run "RandomForestRegressor" w).2 = Ok tt ->
  run "RandomForestRegressor" w = ((run "RandomForestRegressor" w).1, Ok tt).
Proof.
  intros H. destruct (run "RandomForestRegressor" w) as [st r].
  cbn [fst snd] in *. by subst.
Defined.

(** C4, as stated, fails: two runs on the same files with the same split
    seed 42 bind the same four parts, but the estimator, built without a
    seed of its own, draws from the process-wide generator, whose state
    differs between the two processes, and the two runs log different values
    of [mse]. *)
Lemma same_seed_different_metrics :
  let out1 := run "RandomForestRegressor" demo_world in
  let out2 := run "RandomForestRegressor" later_world in
  fs demo_world = fs later_world
  /\ out1.2 = Ok tt /\ out2.2 = Ok tt
  /\ globals out1.1 !! "random_state" = Some (VData (JInt 42))
  /\ globals out2.1 !! "random_state" = Some (VData (JInt 42))
  /\ globals out1.1 !! "test_size" = globals out2.1 !! "test_size"
  /\ globals out1.1 !! "X_train" = globals out2.1 !! "X_train"
  /\ globals out1.1 !! "X_test" = globals out2.1 !! "X_test"
  /\ globals out1.1 !! "y_train" = globals out2.1 !! "y_train"
  /\ globals out1.1 !! "y_test" = globals out2.1 !! "y_test"
  /\ exists q1 q2,
       globals out1.1 !! "mse" = Some (VFloat (FRat q1))
       /\ globals out2.1 !! "mse" = Some (VFloat (FRat q2))
       /\ ~ (q1 == q2)%Q.
Proof.
  cbv zeta.
  do 10 (split; [ vm_compute; reflexivity | ]).
  eexists. eexists.
  split; [ vm_compute; reflexivity | ].
  split; [ vm_compute; reflexivity | ].
  intros H. vm_compute in H. discriminate H.
Qed.

Lemma same_seed_same_partition_witness :
  let out1 := run "RandomForestRegressor" (seeded_world "2024-05-01 10:00:00" 7) in
  let out2 := run "RandomForestRegressor" (seeded_world "2024-05-02 09:30:00" 8) in
  (forall x, x ∈ ["X_train"; "X_test"; "y_train"; "y_test"] ->
             globals out1.1 !! x = globals out2.1 !! x)
  /\ (forall x, x ∈ ["mse"; "mae"; "rmse"; "r2"] ->
                globals out1.1 !! x = globals out2.1 !! x).
Proof.
  cbv zeta.
  destruct (@same_seed_same_partition demo_sklearn "RandomForestRegressor"
              (seeded_world "2024-05-01 10:00:00" 7)
              (seeded_world "2024-05-02 09:30:00" 8)
              (run "RandomForestRegressor" (seeded_world "2024-05-01 10:00:00" 7)).1
              (run "RandomForestRegressor" (seeded_world "2024-05-02 09:30:00" 8)).1
              42%Z)
    as [Hparts Hmetrics].
  - intros path _. reflexivity.
  - reflexivity.
  - apply run_completes. vm_compute. reflexivity.
  - apply run_completes. vm_compute. reflexivity.
  - vm_compute. reflexivity.
  - split; [ exact Hparts | ].
    apply Hmetrics. right.
    exists {[ "n_estimators" := JInt 10; "random_state" := JInt 0 ]}, 0%Z.
    split; vm_compute; reflexivity.
Defined.






(** * More concrete runs *)

Lemma lines_18_to_69_only_set_the_tracking_uri_witness :
  run "RandomForestRegressor" flat_world
  = ((prepare "RandomForestRegressor" {| globals := ∅; world := flat_world |}).1,
     Raise (KeyError "feature_selection"))
  /\ untouched flat_world
       (prepare "RandomForestRegressor" {| globals := ∅; world := flat_world |}).1.
Proof.
  destruct (@lines_18_to_69_only_set_the_tracking_uri demo_sklearn
              "RandomForestRegressor" flat_world) as (_ & Hsame & Hraise).
  split; [ apply Hraise; vm_compute; reflexivity | exact Hsame ].
Defined.

Lemma line_81_always_ends_its_run_witness :
  exists r,
    store (mlflow (world (line_81 (named_state "demo" demo_world)).1)) = [r]
    /\ run_name r = "demo"
    /\ experiment r = "Default"
    /\ status r = FAILED
    /\ active_run (mlflow (world (line_81 (named_state "demo" demo_world)).1)) = None.
Proof.
  destruct (@line_81_always_ends_its_run demo_sklearn (named_state "demo" demo_world) "demo"
              eq_refl eq_refl)
    as (r & Hstore & Hname & Hexp & _ & Hfailed & Hactive).
  exists r. repeat split; try assumption.
  apply (Hfailed (NameError "model")). vm_compute. reflexivity.
Defined.


Lemma run_adds_at_most_one_record_witness :
  active_run (mlflow (world (run "RandomForestRegressor" read_only_world).1)) = None
  /\ exists r,
       store (mlflow (world (run "RandomForestRegressor" read_only_world).1)) = [r]
       /\ status r = FAILED.
Proof.
  destruct (@run_adds_at_most_one_record demo_sklearn "RandomForestRegressor" read_only_world
              eq_refl)
    as [Hactive [(e & _ & Hstore)|(r & Hstore & Hstatus)]].
  - apply (f_equal length) in Hstore. vm_compute in Hstore. discriminate Hstore.
  - split; [ exact Hactive | ]. exists r. split; [ exact Hstore | ].
    rewrite Hstatus. vm_compute. reflexivity.
Defined.

Lemma relative_paths_are_never_written_witness :
  fs (world (run "RandomForestRegressor" demo_world).1) !! "configs/RandomForest.json"
  = Some (FJson nested_config)
  /\ fs (world (run "RandomForestRegressor" demo_world).1)
       !! "data/processed_data/cleaned_data.csv"
     = Some (FCsv ten_rows).
Proof.
  destruct (@relative_paths_are_never_written demo_sklearn "RandomForestRegressor" demo_world)
    as (Hrelative & Hconfig & Hdata).
  split.
  - rewrite (Hconfig "configs/RandomForest.json" eq_refl). reflexivity.
  - rewrite (Hrelative "data/processed_data/cleaned_data.csv" eq_refl). reflexivity.
Defined.

Lemma missing_config_file_raises_FileNotFoundError_witness :
  run "XGBRegressor" demo_world
  = (after_constants "XGBRegressor" demo_world,
     Raise (FileNotFoundError "configs/XGBoost.json")).
Proof.
  apply (@missing_config_file_raises_FileNotFoundError demo_sklearn); reflexivity.
Defined.

Lemma missing_data_file_raises_FileNotFoundError_witness :
  (run "RandomForestRegressor" config_only_world).2
  = Raise (FileNotFoundError "data/processed_data/cleaned_data.csv")
  /\ globals (run "RandomForestRegressor" config_only_world).1 !! "df" = None.
Proof.
  destruct (@missing_data_file_raises_FileNotFoundError demo_sklearn
              "RandomForestRegressor" "configs/RandomForest.json" nested_config
              config_only_world eq_refl eq_refl eq_refl)
    as (Hrun & _ & Hdf).
  split; [ rewrite Hrun; reflexivity | exact Hdf ].
Defined.

Lemma missing_feature_keys_raise_KeyError_witness :
  (run "RandomForestRegressor" flat_world).2 = Raise (KeyError "feature_selection").
Proof.
  destruct (@missing_feature_keys_raise_KeyError demo_sklearn
              "RandomForestRegressor" "configs/RandomForest.json"
              {[ "features_to_keep" := JList [JStr "a"; JStr "b"];
                 "target_variable" := JStr "y";
                 "missing_value_imputation" := JDict {[ "enabled" := JBool false ]};
                 "data_split" := split_section;
                 "model" := model_section ]}
              ten_rows flat_world eq_refl eq_refl eq_refl)
    as [Hmissing _].
  rewrite Hmissing; reflexivity.
Defined.

Lemma unknown_feature_raises_KeyError_witness :
  exists missing,
    (run "RandomForestRegressor" stray_feature_world).2 = Raise (KeyError missing)
    /\ missing ∈ ["a"; "c"] /\ missing ∉ ["a"; "b"; "y"].
Proof.
  destruct (@unknown_feature_raises_KeyError demo_sklearn
              "RandomForestRegressor" "configs/RandomForest.json" stray_feature_config
              ten_rows stray_feature_world
              (JDict {[ "features_to_keep" := JList [JStr "a"; JStr "c"] ]})
              (JList [JStr "a"; JStr "c"]) ["a"; "c"]
              eq_refl eq_refl eq_refl eq_refl eq_refl eq_refl)
    as (missing & Hrun & Hin & Hnot & _).
  - exists "c". split; [ apply elem_of_cons; right; apply elem_of_cons; by left | ].
    change (columns ten_rows) with ["a"; "b"; "y"].
    rewrite !not_elem_of_cons. repeat split; try discriminate. apply not_elem_of_nil.
  - exists missing. split; [ rewrite Hrun; reflexivity | ]. split; assumption.
Defined.

Lemma unknown_target_raises_KeyError_witness :
  (run "RandomForestRegressor" stray_target_world).2 = Raise (KeyError "z").
Proof.
  rewrite (@unknown_target_raises_KeyError demo_sklearn
             "RandomForestRegressor" "configs/RandomForest.json" stray_target_config
             ten_rows stray_target_world
             (JDict {[ "features_to_keep" := JList [JStr "a"; JStr "b"] ]})
             (JList [JStr "a"; JStr "b"]) ["a"; "b"] ten_rows_X "z"
             eq_refl eq_refl eq_refl eq_refl eq_refl eq_refl eq_refl eq_refl).
  - reflexivity.
  - change (columns ten_rows) with ["a"; "b"; "y"].
    rewrite !not_elem_of_cons. repeat split; try discriminate. apply not_elem_of_nil.
Defined.

(** The string "false" is a true value: it switches imputation on. *)
Lemma imputation_switch_witness :
  line_46 (configured_state nested_config) = (configured_state nested_config, Ok tt)
  /\ line_46 (configured_state
                (JDict {[ "missing_value_imputation" :=
                            JDict {[ "enabled" := JStr "false" ]} ]}))
     = (configured_state
          (JDict {[ "missing_value_imputation" := JDict {[ "enabled" := JStr "false" ]} ]}),
        Raise (KeyError "strategy")).
Proof.
  destruct (@imputation_switch demo_sklearn (configured_state nested_config) nested_config
              (JDict {[ "enabled" := JBool false ]}) (JBool false))
    as [Hoff _]; [ vm_compute; reflexivity.. | ].
  destruct (@imputation_switch demo_sklearn
              (configured_state
                 (JDict {[ "missing_value_imputation" :=
                             JDict {[ "enabled" := JStr "false" ]} ]}))
              (JDict {[ "missing_value_imputation" := JDict {[ "enabled" := JStr "false" ]} ]})
              (JDict {[ "enabled" := JStr "false" ]}) (JStr "false"))
    as [_ Hon]; [ vm_compute; reflexivity.. | ].
  split; [ apply Hoff; reflexivity | ].
  apply (Hon eq_refl {[ "enabled" := JStr "false" ]}); [ reflexivity | ].
  vm_compute. reflexivity.
Defined.

Lemma imputation_completes :
  line_46 (before_imputation (JStr "mean") gappy_frame)
  = ((line_46 (before_imputation (JStr "mean") gappy_frame)).1, Ok tt).
Proof.
  assert (H : (line_46 (before_imputation (JStr "mean") gappy_frame)).2 = Ok tt)
    by (vm_compute; reflexivity).
  destruct (line_46 (before_imputation (JStr "mean") gappy_frame)) as [st r].
  cbn [fst snd] in *. by subst.
Defined.

Lemma imputation_fills_every_gap_witness :
  exists X',
    globals (line_46 (before_imputation (JStr "mean") gappy_frame)).1 !! "X"
    = Some (VFrame X')
    /\ complete_frame X' /\ keeps_observed gappy_frame X'.
Proof.
  apply (@imputation_fills_every_gap demo_sklearn
           (before_imputation (JStr "mean") gappy_frame)
           (imputing_config (JStr "mean"))
           (JDict {[ "enabled" := JBool true; "strategy" := JStr "mean" ]})
           (JBool true)
           (JList (JStr <$> columns gappy_frame))
           (columns gappy_frame)
           gappy_frame);
    [ reflexivity.. | apply imputation_completes ].
Defined.





Lemma split_completes :
  line_55 (splitting_state (JFloat (2 # 10)) (JInt 42))
  = ((line_55 (splitting_state (JFloat (2 # 10)) (JInt 42))).1, Ok tt).
Proof.
  assert (H : (line_55 (splitting_state (JFloat (2 # 10)) (JInt 42))).2 = Ok tt)
    by (vm_compute; reflexivity).
  destruct (line_55 (splitting_state (JFloat (2 # 10)) (JInt 42))) as [st r].
  cbn [fst snd] in *. by subst.
Defined.

Lemma split_is_a_partition_witness :
  exists X_train X_test y_train y_test,
    globals (line_55 (splitting_state (JFloat (2 # 10)) (JInt 42))).1 !! "y_train"
    = Some (VSeries y_train)
    /\ globals (line_55 (splitting_state (JFloat (2 # 10)) (JInt 42))).1 !! "y_test"
       = Some (VSeries y_test)
    /\ globals (line_55 (splitting_state (JFloat (2 # 10)) (JInt 42))).1 !! "X_train"
       = Some (VFrame X_train)
    /\ globals (line_55 (splitting_state (JFloat (2 # 10)) (JInt 42))).1 !! "X_test"
       = Some (VFrame X_test)
    /\ nrows X_train + nrows X_test = 10
    /\ y_test ++ y_train ≡ₚ ten_rows_y.
Proof.
  destruct (@split_is_a_partition demo_sklearn
              (splitting_state (JFloat (2 # 10)) (JInt 42))
              (line_55 (splitting_state (JFloat (2 # 10)) (JInt 42))).1
              ten_rows_X ten_rows_y demo_permutation eq_refl eq_refl split_completes)
    as (X_train & X_test & y_train & y_test & ind_train & ind_test
        & H1 & H2 & H3 & H4 & _ & _ & _ & _ & _ & Hrows & _ & Hperm).
  exists X_train, X_test, y_train, y_test. auto 10.
Defined.

Lemma later_run_completes :
  run "RandomForestRegressor" later_world
  = ((run "RandomForestRegressor" later_world).1, Ok tt).
Proof. apply run_completes. vm_compute. reflexivity. Defined.

Lemma run_names_differ_only_by_the_clock_witness :
  exists r1 r2,
    last (store (mlflow (world (run "RandomForestRegressor" demo_world).1))) = Some r1
    /\ last (store (mlflow (world (run "RandomForestRegressor" later_world).1))) = Some r2
    /\ run_name r1 <> run_name r2.
Proof.
  destruct (@run_names_differ_only_by_the_clock demo_sklearn "RandomForestRegressor"
              demo_world later_world
              (run "RandomForestRegressor" demo_world).1
              (run "RandomForestRegressor" later_world).1
              demo_run_completes later_run_completes)
    as (r1 & r2 & H1 & H2 & _ & Hiff).
  exists r1, r2. split; [ exact H1 | ]. split; [ exact H2 | ].
  intros E. apply Hiff in E. discriminate E.
Defined.


Lemma boxplot_paths_witness :
  boxplot_path boxplot_dir "a"
  = "/workspaces/ESG_Credit_Approval/mlflowlogs/artifacts/EDA/boxplots/a_boxplot.png"
  /\ boxplot_path boxplot_dir "/a" = "/a_boxplot.png".
Proof.
  destruct (boxplot_paths boxplot_dir) as (Hunder & Hroot & _ & _);
    [ discriminate | reflexivity | ].
  split.
  - rewrite (Hunder "a" eq_refl). reflexivity.
  - rewrite (Hroot "/a" eq_refl). reflexivity.
Defined.
